(** * bazel_to_cmake: the BUILD.bazel to CMakeLists.txt converter

    A shallow embedding of [bazel_to_cmake.py] (classes [BazelTarget],
    [BazelParser], [CMakeGenerator]) and the properties of its parser and
    generator.

    Python [str] values are modelled as [string] (sequences of bytes, UTF-8).
    Every separator and sigil the program looks for is ASCII, so prefix
    tests, substring tests, splitting and the slice [dep[1:]] after a leading
    [":"] agree with Python's code-point semantics. *)

From Stdlib Require Import Ascii.
From stdpp Require Import base strings gmap list pretty.

(** ** Python [str] operations used by the program *)

Module Py.

(** The newline character of ['\n'.join(lines)]. *)
Definition nl : string := String (ascii_of_nat 10) EmptyString.

(** [s.startswith(p)] *)
Fixpoint startswith (s p : string) {struct p} : bool :=
  match p with
  | EmptyString => true
  | String c p' =>
      match s with
      | EmptyString => false
      | String d s' => Ascii.eqb d c && startswith s' p'
      end
  end.

(** [sub in s] *)
Fixpoint contains (sub s : string) : bool :=
  startswith s sub ||
  match s with
  | EmptyString => false
  | String _ s' => contains sub s'
  end.

(** [s.split(sep)] for a separator of one character. *)
Fixpoint split (sep : ascii) (s : string) : list string :=
  match s with
  | EmptyString => [EmptyString]
  | String c s' =>
      if Ascii.eqb c sep then EmptyString :: split sep s'
      else match split sep s' with
           | [] => [String c EmptyString]
           | w :: ws => String c w :: ws
           end
  end.

(** [l[-1]] on a list of strings ([split] never returns an empty list). *)
Definition last (l : list string) : string := List.last l EmptyString.

(** [s[1:]] *)
Definition tail (s : string) : string :=
  match s with
  | EmptyString => EmptyString
  | String _ s' => s'
  end.

(** [sep.join(l)] *)
Definition join (sep : string) (l : list string) : string :=
  String.concat sep l.

(** Truth value of a list: [if l:] *)
Definition truthy {A} (l : list A) : bool :=
  match l with
  | [] => false
  | _ :: _ => true
  end.

End Py.

(** ** class BazelTarget *)

Record BazelTarget := mkBazelTarget {
  rule_type : string;
  name : string;
  hdrs : list string;
  srcs : list string;
  deps : list string;
  visibility : list string;
  data : list string
}.

(** [BazelTarget.__init__] *)
Definition BazelTarget_init (rule_type name : string) : BazelTarget :=
  mkBazelTarget rule_type name [] [] [] [] [].

(** [BazelTarget.add_attribute] *)
Definition add_attribute (self : BazelTarget) (attr_name : string)
    (values : list string) : BazelTarget :=
  if String.eqb attr_name "hdrs" then
    mkBazelTarget (rule_type self) (name self) (hdrs self ++ values)
      (srcs self) (deps self) (visibility self) (data self)
  else if String.eqb attr_name "srcs" then
    mkBazelTarget (rule_type self) (name self) (hdrs self)
      (srcs self ++ values) (deps self) (visibility self) (data self)
  else if String.eqb attr_name "deps" then
    mkBazelTarget (rule_type self) (name self) (hdrs self)
      (srcs self) (deps self ++ values) (visibility self) (data self)
  else if String.eqb attr_name "visibility" then
    mkBazelTarget (rule_type self) (name self) (hdrs self)
      (srcs self) (deps self) (visibility self ++ values) (data self)
  else if String.eqb attr_name "data" then
    mkBazelTarget (rule_type self) (name self) (hdrs self)
      (srcs self) (deps self) (visibility self) (data self ++ values)
  else self.

(** ** class CMakeGenerator *)

Record CMakeGenerator := mkCMakeGenerator {
  project_name : string;
  cmake_minimum_version : string;
  cpp_standard : string
}.

(** [CMakeGenerator.__init__]; the default project name is
    ["strong_typedefs"]. *)
Definition CMakeGenerator_init (project_name : string) : CMakeGenerator :=
  mkCMakeGenerator project_name "3.20" "20".

Definition default_project_name : string := "strong_typedefs".

(** [for x in xs: lines.append(f(x))] *)
Definition append_each {A} (f : A → string) (lines : list string)
    (xs : list A) : list string :=
  foldl (λ lines x, lines ++ [f x]) lines xs.

Definition indent (s : string) : string := "    " +:+ s.

Definition _generate_header (self : CMakeGenerator) : list string :=
  [ "cmake_minimum_required(VERSION " +:+ cmake_minimum_version self +:+ ")";
    "project(" +:+ project_name self +:+ " LANGUAGES CXX)";
    "";
    "set(CMAKE_CXX_STANDARD " +:+ cpp_standard self +:+ ")";
    "set(CMAKE_CXX_STANDARD_REQUIRED ON)";
    "set(CMAKE_CXX_EXTENSIONS OFF)";
    "";
    "# Enable testing";
    "include(CTest)";
    "enable_testing()" ].

(** The test of the inner loop of [_find_external_deps]. *)
Definition is_external_gtest (dep : string) : bool :=
  Py.startswith dep "@" &&
  (Py.contains "googletest" dep || Py.contains "gtest" dep).

Definition _find_external_deps (targets : list BazelTarget) : gset string :=
  foldl (λ external_deps target,
           foldl (λ external_deps dep,
                    if Py.startswith dep "@" then
                      if Py.contains "googletest" dep || Py.contains "gtest" dep
                      then external_deps ∪ {["GTest"]}
                      else external_deps
                    else external_deps)
                 external_deps (deps target))
        ∅ targets.

Definition fetch_googletest : list string :=
  [ "include(FetchContent)";
    "";
    "# Fetch GoogleTest";
    "FetchContent_Declare(";
    "    googletest";
    "    GIT_REPOSITORY https://github.com/google/googletest.git";
    "    GIT_TAG        v1.14.0";
    ")";
    "FetchContent_MakeAvailable(googletest)" ].

Definition _generate_find_package_section (external_deps : gset string)
    : list string :=
  let lines := ["# External dependencies"] in
  if bool_decide ("GTest" ∈ external_deps) then lines ++ fetch_googletest
  else lines.

(** One step of the loop of [_convert_deps_to_cmake]. *)
Definition convert_dep (cmake_deps : list string) (dep : string)
    : list string :=
  if Py.startswith dep ":" then
    cmake_deps ++ [Py.tail dep]
  else if Py.startswith dep "//" then
    let target_name :=
      if Py.contains ":" dep then Py.last (Py.split ":" dep)
      else Py.last (Py.split "/" dep) in
    cmake_deps ++ [target_name]
  else if Py.contains "@com_google_googletest//:gtest_main" dep then
    cmake_deps ++ ["GTest::gtest_main"]
  else if Py.contains "@com_google_googletest//:gtest" dep then
    cmake_deps ++ ["GTest::gtest"]
  else if Py.startswith dep "@" then
    if Py.contains "googletest" dep || Py.contains "gtest" dep then
      if Py.contains "main" dep then cmake_deps ++ ["GTest::gtest_main"]
      else cmake_deps ++ ["GTest::gtest"]
    else cmake_deps
  else cmake_deps.

Definition _convert_deps_to_cmake (bazel_deps : list string) : list string :=
  foldl convert_dep [] bazel_deps.

Definition _generate_library_target (target : BazelTarget) : list string :=
  let lines := ["# Library: " +:+ name target] in
  let is_header_only :=
    negb (Py.truthy (srcs target)) && Py.truthy (hdrs target) in
  let lines :=
    if is_header_only then
      let lines := lines ++ ["add_library(" +:+ name target +:+ " INTERFACE)"] in
      let lines :=
        if Py.truthy (hdrs target) then
          let lines :=
            lines ++ ["target_sources(" +:+ name target +:+ " INTERFACE"] in
          let lines :=
            append_each (λ hdr, "    ${CMAKE_CURRENT_SOURCE_DIR}/" +:+ hdr)
              lines (hdrs target) in
          lines ++ [")"]
        else lines in
      lines ++
        [ "target_include_directories(" +:+ name target +:+ " INTERFACE";
          "    $<BUILD_INTERFACE:${CMAKE_CURRENT_SOURCE_DIR}>";
          "    $<INSTALL_INTERFACE:include>";
          ")" ]
    else
      let sources := srcs target ++ hdrs target in
      let lines := lines ++ ["add_library(" +:+ name target] in
      let lines := append_each indent lines sources in
      lines ++
        [ ")";
          "target_include_directories(" +:+ name target +:+ " PUBLIC";
          "    $<BUILD_INTERFACE:${CMAKE_CURRENT_SOURCE_DIR}>";
          "    $<INSTALL_INTERFACE:include>";
          ")" ] in
  if Py.truthy (deps target) then
    let cmake_deps := _convert_deps_to_cmake (deps target) in
    if Py.truthy cmake_deps then
      let scope := if is_header_only then "INTERFACE" else "PUBLIC" in
      let lines :=
        lines ++
          ["target_link_libraries(" +:+ name target +:+ " " +:+ scope] in
      let lines := append_each indent lines cmake_deps in
      lines ++ [")"]
    else lines
  else lines.

Definition _generate_test_target (target : BazelTarget) : list string :=
  let lines := ["# Test: " +:+ name target] in
  let lines := lines ++ ["add_executable(" +:+ name target] in
  let lines := append_each indent lines (srcs target) in
  let lines := lines ++ [")"] in
  let cmake_deps := _convert_deps_to_cmake (deps target) in
  let lines :=
    if Py.truthy cmake_deps then
      let lines := lines ++ ["target_link_libraries(" +:+ name target] in
      let lines := append_each indent lines cmake_deps in
      lines ++ [")"]
    else lines in
  lines ++
    ["add_test(NAME " +:+ name target +:+ " COMMAND " +:+ name target +:+ ")"].

Definition _generate_binary_target (target : BazelTarget) : list string :=
  let lines := ["# Binary: " +:+ name target] in
  let lines := lines ++ ["add_executable(" +:+ name target] in
  let lines := append_each indent lines (srcs target) in
  let lines := lines ++ [")"] in
  let cmake_deps := _convert_deps_to_cmake (deps target) in
  if Py.truthy cmake_deps then
    let lines := lines ++ ["target_link_libraries(" +:+ name target] in
    let lines := append_each indent lines cmake_deps in
    lines ++ [")"]
  else lines.

Definition _generate_target (target : BazelTarget) : list string :=
  let lines := ["# " +:+ rule_type target +:+ ": " +:+ name target] in
  if String.eqb (rule_type target) "cc_library" then
    _generate_library_target target
  else if String.eqb (rule_type target) "cc_test" then
    _generate_test_target target
  else if String.eqb (rule_type target) "cc_binary" then
    _generate_binary_target target
  else lines.

Definition _generate_install_rules (library_targets : list BazelTarget)
    : list string :=
  let lines := ["# Install rules"] in
  let lines :=
    foldl (λ lines target,
             if Py.truthy (hdrs target) then
               let lines := lines ++ ["install(FILES"] in
               let lines := append_each indent lines (hdrs target) in
               lines ++ ["    DESTINATION include)"]
             else lines)
          lines library_targets in
  let target_names := name <$> library_targets in
  if Py.truthy target_names then
    let lines := lines ++ ["install(TARGETS"] in
    let lines := append_each indent lines target_names in
    lines ++
      [ "    EXPORT ${PROJECT_NAME}Targets";
        "    LIBRARY DESTINATION lib";
        "    ARCHIVE DESTINATION lib";
        "    RUNTIME DESTINATION bin";
        "    INCLUDES DESTINATION include)" ]
  else lines.

(** The list comprehension [[t for t in targets if t.rule_type == "cc_library"]]. *)
Definition library_targets_of (targets : list BazelTarget)
    : list BazelTarget :=
  filter (λ t, String.eqb (rule_type t) "cc_library" = true) targets.

(** The value of the local [lines] of [generate_cmake] when the output file
    is opened. *)
Definition generate_cmake_lines (self : CMakeGenerator)
    (targets : list BazelTarget) : list string :=
  let lines := [] in
  let lines := lines ++ _generate_header self in
  let lines := lines ++ [""] in
  let external_deps := _find_external_deps targets in
  let lines :=
    if bool_decide (external_deps ≠ ∅) then
      let lines := lines ++ _generate_find_package_section external_deps in
      lines ++ [""]
    else lines in
  let lines :=
    foldl (λ lines target, (lines ++ _generate_target target) ++ [""])
          lines targets in
  let library_targets := library_targets_of targets in
  if Py.truthy library_targets then
    lines ++ _generate_install_rules library_targets
  else lines.

(** ** Exceptions and the machine

    The exceptions the program lets through.  [OSError kind] stands for the
    subclasses of [OSError] that [open] and [write] raise
    ([FileNotFoundError], [IsADirectoryError], [PermissionError], ...). *)

Inductive exn :=
| SyntaxError
| NameError (id : string)
| TypeError (callee : string)
| ValueError
| OSError (kind : string).

Inductive result (A : Type) :=
| Ok (a : A)
| Raise (e : exn).
Arguments Ok {A} a.
Arguments Raise {A} e.

(** The file system the generator writes to: path to contents. *)
Abbreviation filesystem := (gmap string string).

(** What the machine answers when a file is written, which the program does
    not change: [open_w path] is the exception [open(path, 'w')] raises, if
    any (a missing directory, a directory in place of the file, no
    permission); [write_w path text] is the exception that writing [text] and
    closing the file raises, if any, with what the file is left holding. *)
Record machine := mkMachine {
  open_w : string → option exn;
  write_w : string → string → option (exn * string)
}.

(** [CMakeGenerator.generate_cmake]: builds the lines, then
    [open(output_path, 'w')] truncates or creates the file and [f.write]
    stores the joined text.  The method returns [None] or lets the exception
    of [open] or [write] through; its effect is the new file system. *)
Definition generate_cmake (self : CMakeGenerator) (targets : list BazelTarget)
    (output_path : string) (os : machine) (fs : filesystem)
    : result unit * filesystem :=
  let lines := generate_cmake_lines self targets in
  match open_w os output_path with
  | Some e => (Raise e, fs)
  | None =>
      match write_w os output_path (Py.join Py.nl lines) with
      | Some (e, rest) => (Raise e, <[output_path := rest]> fs)
      | None => (Ok (), <[output_path := Py.join Py.nl lines]> fs)
      end
  end.

(** ** class BazelParser *)

Record BazelParser := mkBazelParser {
  targets : list BazelTarget
}.

(** [BazelParser.__init__] *)
Definition BazelParser_init : BazelParser := mkBazelParser [].

(** *** The descriptor as [exec] sees it

    [exec(content, exec_globals)] first compiles the whole text; a text that
    does not compile raises [SyntaxError] before any statement runs
    ([Malformed]).  The compiler can also refuse a text with another
    exception, as Python before 3.12 does with [ValueError] for a text that
    holds a NUL byte ([Refused]).  A text of the declaration language that
    compiles is a sequence of top-level call statements
    [callee(arg, ..., key = value, ...)].

    The argument values of a [call] are string literals and lists of string
    literals, the values [BazelTarget] is annotated for: [Module body] is a
    text of call statements whose arguments are all such literals.  A nested
    call such as [glob(["*.h"])] or a bare name in an argument is an
    expression of [stmt] below; other expressions (a tuple, a number) are
    outside the model.

    The keyword [name] is kept apart from the other keywords:
    [BazelTarget.name] is annotated [str], and a descriptor that gives a list
    as the name is outside the model.  The other keywords form the dict
    [kwargs] (Python rejects a repeated keyword at compile time). *)

Inductive value :=
| Str (s : string)
| Strs (l : list string).

Record call := Call {
  callee : string;
  args : list value;
  name_kw : option string;
  kwargs : gmap string value
}.

Inductive source :=
| Malformed
| Module (body : list call)
| Refused (e : exn).

(** [BazelParser._populate_target] *)
Definition _populate_target (target : BazelTarget) (kwargs : gmap string value)
    : BazelTarget :=
  foldl (λ target attr_name,
           match kwargs !! attr_name with
           | Some values =>
               match values with
               | Strs values => add_attribute target attr_name values
               | Str values => add_attribute target attr_name [values]
               end
           | None => target
           end)
        target ["hdrs"; "srcs"; "deps"; "visibility"; "data"].

(** [kwargs.get("name", "")] *)
Definition get_name (c : call) : string := default "" (name_kw c).

(** The functions bound in [exec_globals]; each closes over [self]. *)
Inductive mock := load | cc_library | cc_test | cc_binary.

Definition exec_globals : gmap string mock :=
  {[ "load" := load;
     "cc_library" := cc_library;
     "cc_test" := cc_test;
     "cc_binary" := cc_binary ]}.

(** A recording function accepts keyword arguments only, so a call with a
    positional argument raises [TypeError]. *)
Definition record_target (rule : string) (c : call) (self : BazelParser)
    : result unit * BazelParser :=
  match args c with
  | [] =>
      let target := BazelTarget_init rule (get_name c) in
      let target := _populate_target target (kwargs c) in
      (Ok (), mkBazelParser (targets self ++ [target]))
  | _ :: _ => (Raise (TypeError (callee c)), self)
  end.

Definition call_mock (f : mock) (c : call) (self : BazelParser)
    : result unit * BazelParser :=
  match f with
  | load => (Ok (), self)
  | cc_library => record_target "cc_library" c self
  | cc_test => record_target "cc_test" c self
  | cc_binary => record_target "cc_binary" c self
  end.

(** One top-level call statement: the callee is looked up in the globals
    ([NameError] when it is not bound), then called.  [exec] also adds
    Python's [builtins] module to the globals; a statement that calls one of
    its names ([python_builtins] below) is outside the model, and the
    properties that depend on the outcome of an unbound name say so. *)
Definition exec_stmt (globals : gmap string mock) (c : call)
    (self : BazelParser) : result unit * BazelParser :=
  match globals !! callee c with
  | Some f => call_mock f c self
  | None => (Raise (NameError (callee c)), self)
  end.

(** The statements run in order; the first exception stops the run and
    leaves what was recorded so far in [self.targets]. *)
Fixpoint exec_body (globals : gmap string mock) (body : list call)
    (self : BazelParser) : result unit * BazelParser :=
  match body with
  | [] => (Ok (), self)
  | c :: body' =>
      match exec_stmt globals c self with
      | (Ok _, self') => exec_body globals body' self'
      | (Raise e, self') => (Raise e, self')
      end
  end.

Definition exec (content : source) (globals : gmap string mock)
    (self : BazelParser) : result unit * BazelParser :=
  match content with
  | Malformed => (Raise SyntaxError, self)
  | Module body => exec_body globals body self
  | Refused e => (Raise e, self)
  end.

(** [BazelParser.parse_file], from the contents read from [filepath] on. *)
Definition parse_file (content : source) (self : BazelParser)
    : result (list BazelTarget) * BazelParser :=
  match exec content exec_globals self with
  | (Ok _, self') => (Ok (targets self'), self')
  | (Raise e, self') => (Raise e, self')
  end.

(** The names a descriptor can use beyond [exec_globals]: [__builtins__],
    which [exec] itself inserts in the globals, and the names of Python's
    [builtins] module (Python 3.9 to 3.13). *)
Definition python_builtins : list string :=
  [ "__builtins__"; "ArithmeticError"; "AssertionError"; "AttributeError"; "BaseException";
    "BaseExceptionGroup"; "BlockingIOError"; "BrokenPipeError"; "BufferError";
    "BytesWarning"; "ChildProcessError"; "ConnectionAbortedError";
    "ConnectionError"; "ConnectionRefusedError"; "ConnectionResetError";
    "DeprecationWarning"; "EOFError"; "Ellipsis"; "EncodingWarning";
    "EnvironmentError"; "Exception"; "ExceptionGroup"; "False";
    "FileExistsError"; "FileNotFoundError"; "FloatingPointError";
    "FutureWarning"; "GeneratorExit"; "IOError"; "ImportError";
    "ImportWarning"; "IndentationError"; "IndexError"; "InterruptedError";
    "IsADirectoryError"; "KeyError"; "KeyboardInterrupt"; "LookupError";
    "MemoryError"; "ModuleNotFoundError"; "NameError"; "None";
    "NotADirectoryError"; "NotImplemented"; "NotImplementedError"; "OSError";
    "OverflowError"; "PendingDeprecationWarning"; "PermissionError";
    "ProcessLookupError"; "PythonFinalizationError"; "RecursionError";
    "ReferenceError"; "ResourceWarning"; "RuntimeError"; "RuntimeWarning";
    "StopAsyncIteration"; "StopIteration"; "SyntaxError"; "SyntaxWarning";
    "SystemError"; "SystemExit"; "TabError"; "TimeoutError"; "True";
    "TypeError"; "UnboundLocalError"; "UnicodeDecodeError";
    "UnicodeEncodeError"; "UnicodeError"; "UnicodeTranslateError";
    "UnicodeWarning"; "UserWarning"; "ValueError"; "Warning";
    "WindowsError"; "ZeroDivisionError"; "_IncompleteInputError";
    "__build_class__"; "__debug__"; "__doc__"; "__import__"; "__loader__";
    "__name__"; "__package__"; "__spec__"; "abs"; "aiter"; "all"; "anext";
    "any"; "ascii"; "bin"; "bool"; "breakpoint"; "bytearray"; "bytes";
    "callable"; "chr"; "classmethod"; "compile"; "complex"; "copyright";
    "credits"; "delattr"; "dict"; "dir"; "divmod"; "enumerate"; "eval";
    "exec"; "exit"; "filter"; "float"; "format"; "frozenset"; "getattr";
    "globals"; "hasattr"; "hash"; "help"; "hex"; "id"; "input"; "int";
    "isinstance"; "issubclass"; "iter"; "len"; "license"; "list"; "locals";
    "map"; "max"; "memoryview"; "min"; "next"; "object"; "oct"; "open";
    "ord"; "pow"; "print"; "property"; "quit"; "range"; "repr"; "reversed";
    "round"; "set"; "setattr"; "slice"; "sorted"; "staticmethod"; "str";
    "sum"; "super"; "tuple"; "type"; "vars"; "zip" ].

(** A statement that calls no name of the [builtins] module. *)
Definition calls_no_builtin (c : call) : Prop :=
  callee c ∉ python_builtins.

(** *** Call statements with argument expressions

    A call statement as the text has it: the arguments are expressions, which
    [exec] evaluates from left to right, positional arguments first, after it
    has looked the callee up and before it calls it.  [Lit] is a literal of
    the model.  [Nested f] is a nested call [f(...)] or the bare name [f]:
    its evaluation starts by looking [f] up and raises [NameError] when
    neither [exec_globals] nor the builtins bind it.  What a bound name gives
    (a function object, the result of a builtin, the [None] of [load]) is not
    a [value]: there the functions below answer [None] and say nothing of
    the statement.  They also answer [None] for a repeated keyword, which the
    compiler rejects, for a callee that is a builtin, and for a [name] that
    is a list. *)

Inductive expr :=
| Lit (v : value)
| Nested (f : string).

Record stmt := Stmt {
  fn : string;
  positional : list expr;
  keywords : list (string * expr)
}.

Definition bound (id : string) : bool :=
  bool_decide (is_Some (exec_globals !! id))
  || bool_decide (id ∈ python_builtins).

(** The argument expressions, evaluated from left to right. *)
Fixpoint eval_args (es : list expr) : option (result (list value)) :=
  match es with
  | [] => Some (Ok [])
  | Lit v :: es' =>
      match eval_args es' with
      | Some (Ok vs) => Some (Ok (v :: vs))
      | Some (Raise e) => Some (Raise e)
      | None => None
      end
  | Nested f :: _ => if bound f then None else Some (Raise (NameError f))
  end.

Definition distinct_keywords (s : stmt) : bool :=
  bool_decide (NoDup (keywords s).*1).

(** The call a function receives once the arguments have their values [vs]:
    the first values are the positional arguments, the others belong to the
    keywords in order. *)
Definition as_call (s : stmt) (vs : list value) : option call :=
  let kwargs : gmap string value :=
    list_to_map (zip (keywords s).*1 (drop (length (positional s)) vs)) in
  match kwargs !! "name" with
  | Some (Strs _) => None
  | Some (Str name) =>
      Some (Call (fn s) (take (length (positional s)) vs) (Some name)
              (delete "name" kwargs))
  | None => Some (Call (fn s) (take (length (positional s)) vs) None kwargs)
  end.

Definition run_stmt (s : stmt) (self : BazelParser)
    : option (result unit * BazelParser) :=
  match exec_globals !! fn s with
  | None =>
      if bool_decide (fn s ∈ python_builtins) then None
      else Some (Raise (NameError (fn s)), self)
  | Some f =>
      match eval_args (positional s ++ (keywords s).*2) with
      | Some (Ok vs) =>
          match as_call s vs with
          | Some c => Some (call_mock f c self)
          | None => None
          end
      | Some (Raise e) => Some (Raise e, self)
      | None => None
      end
  end.

Fixpoint run_stmts (body : list stmt) (self : BazelParser)
    : option (result unit * BazelParser) :=
  match body with
  | [] => Some (Ok (), self)
  | s :: body' =>
      match run_stmt s self with
      | Some (Ok _, self') => run_stmts body' self'
      | Some (Raise e, self') => Some (Raise e, self')
      | None => None
      end
  end.

(** [exec] on a text that compiles to the call statements [body]. *)
Definition run (body : list stmt) (self : BazelParser)
    : option (result unit * BazelParser) :=
  if forallb distinct_keywords body then run_stmts body self else None.

(** A statement whose arguments are all literals is a [call]. *)
Definition literal (e : expr) : option value :=
  match e with
  | Lit v => Some v
  | Nested _ => None
  end.

Definition literal_call (s : stmt) : option call :=
  if distinct_keywords s
  then mapM literal (positional s ++ (keywords s).*2) ≫= as_call s
  else None.

(** ** What a recognized invocation declares

    The Target a rule invocation declares, read off its arguments: the rule
    kind, the [name] argument (empty when missing), and for each of the five
    attributes the given list, a single string counting as a list of one. *)

Definition listify (v : option value) : list string :=
  match v with
  | None => []
  | Some (Str s) => [s]
  | Some (Strs l) => l
  end.

Definition declared_target (c : call) : BazelTarget :=
  mkBazelTarget (callee c) (default "" (name_kw c))
    (listify (kwargs c !! "hdrs")) (listify (kwargs c !! "srcs"))
    (listify (kwargs c !! "deps")) (listify (kwargs c !! "visibility"))
    (listify (kwargs c !! "data")).

Definition is_rule (id : string) : bool :=
  String.eqb id "cc_library" || String.eqb id "cc_test"
  || String.eqb id "cc_binary".

Definition declared (c : call) : list BazelTarget :=
  if is_rule (callee c) then [declared_target c] else [].

(** A statement of the recognized vocabulary: a [load], or one of the three
    rules called with keyword arguments only. *)
Definition recognized (c : call) : Prop :=
  callee c = "load" ∨ (is_rule (callee c) = true ∧ args c = []).

(** A dependency string that no branch of [_convert_deps_to_cmake] takes. *)
Definition unresolvable (dep : string) : Prop :=
  Py.startswith dep ":" = false ∧
  Py.startswith dep "//" = false ∧
  Py.contains "@com_google_googletest//:gtest_main" dep = false ∧
  Py.contains "@com_google_googletest//:gtest" dep = false ∧
  is_external_gtest dep = false.

Definition with_deps (t : BazelTarget) (ds : list string) : BazelTarget :=
  mkBazelTarget (rule_type t) (name t) (hdrs t) (srcs t) ds
    (visibility t) (data t).

(** The install section of a run: what [generate_cmake] appends after the
    target blocks. *)
Definition install_section (targets : list BazelTarget) : list string :=
  let library_targets := library_targets_of targets in
  if Py.truthy library_targets then _generate_install_rules library_targets
  else [].

(** ** Scenarios of the test suite and further inputs *)

Definition my_lib_descriptor : source :=
  Module
    [ Call "load" [Str "@rules_cc//cc:cc_library.bzl"; Str "cc_library"] None ∅;
      Call "load" [Str "@rules_cc//cc:cc_test.bzl"; Str "cc_test"] None ∅;
      Call "cc_library" [] (Some "my_lib")
        {[ "hdrs" := Strs ["my_lib.h"];
           "srcs" := Strs ["my_lib.cc"];
           "visibility" := Strs ["//visibility:public"] ]};
      Call "cc_test" [] (Some "my_lib_test")
        {[ "srcs" := Strs ["my_lib_test.cc"];
           "deps" := Strs [":my_lib"; "@com_google_googletest//:gtest_main"] ]} ].

Definition my_lib : BazelTarget :=
  mkBazelTarget "cc_library" "my_lib" ["my_lib.h"] ["my_lib.cc"] []
    ["//visibility:public"] [].

Definition my_lib_test : BazelTarget :=
  mkBazelTarget "cc_test" "my_lib_test" [] ["my_lib_test.cc"]
    [":my_lib"; "@com_google_googletest//:gtest_main"] [] [].

Definition my_lib_targets : list BazelTarget := [my_lib; my_lib_test].

Definition header_only : BazelTarget :=
  mkBazelTarget "cc_library" "header_only"
    ["template_lib.h"; "inline_funcs.h"] [] [] ["//visibility:public"] [].

(** A library whose headers are a [glob]:
    [cc_library(name = "a", hdrs = glob(["*.h"]))]. *)
Definition glob_library : stmt :=
  Stmt "cc_library" [] [("name", Lit (Str "a")); ("hdrs", Nested "glob")].

(** The first two statements of the test suite's descriptor, as statements. *)
Definition my_lib_stmts : list stmt :=
  [ Stmt "load"
      [Lit (Str "@rules_cc//cc:cc_library.bzl"); Lit (Str "cc_library")] [];
    Stmt "cc_library" []
      [ ("name", Lit (Str "my_lib"));
        ("hdrs", Lit (Strs ["my_lib.h"]));
        ("srcs", Lit (Strs ["my_lib.cc"]));
        ("visibility", Lit (Strs ["//visibility:public"])) ] ].

(** A descriptor that also invokes a rule the parser does not bind. *)
Definition filegroup_descriptor : source :=
  Module [ Call "filegroup" [] (Some "docs") {[ "srcs" := Strs ["README.md"] ]} ].


(** A test whose only dependency is a local helper named after gtest. *)
Definition helper_test : BazelTarget :=
  mkBazelTarget "cc_test" "helper_test" [] ["helper_test.cc"]
    [":gtest_helpers"] [] [].

(** A test whose only dependency is an external package that is not the
    testing framework. *)
Definition boost_test : BazelTarget :=
  mkBazelTarget "cc_test" "boost_test" [] ["boost_test.cc"]
    ["@boost//:filesystem"] [] [].

(** ** Reference resolution as the specification words it

    The cases of a dependency string whose resolution the specification
    fixes: a local reference, a package path with and without a target
    after a colon, and the two entry points of the testing framework. *)

Definition gtest_main_ref : string := "@com_google_googletest//:gtest_main".
Definition gtest_ref : string := "@com_google_googletest//:gtest".

Inductive resolves : string → string → Prop :=
| resolves_local foo :
    resolves (":" +:+ foo) foo
| resolves_package_target path foo :
    Py.startswith (path +:+ ":" +:+ foo) "//" = true →
    Py.contains ":" foo = false →
    resolves (path +:+ ":" +:+ foo) foo
| resolves_package_path path b :
    Py.startswith (path +:+ "/" +:+ b) "//" = true →
    Py.contains ":" (path +:+ "/" +:+ b) = false →
    Py.contains "/" b = false →
    resolves (path +:+ "/" +:+ b) b
| resolves_gtest_main :
    resolves gtest_main_ref "GTest::gtest_main"
| resolves_gtest :
    resolves gtest_ref "GTest::gtest".

(** A link-dependency declaration: present when the resolved list is not
    empty. *)
Definition link_declaration (opening : string) (cmake_deps : list string)
    : list string :=
  if Py.truthy cmake_deps then opening :: (indent <$> cmake_deps) ++ [")"]
  else [].

(** The external-dependency section of a run, with the empty line that
    follows it. *)
Definition external_section (targets : list BazelTarget) : list string :=
  let external_deps := _find_external_deps targets in
  if bool_decide (external_deps ≠ ∅) then
    _generate_find_package_section external_deps ++ [""]
  else [].

(** Some dependency of some target starts with [@] and contains
    [googletest] or [gtest]. *)
Definition uses_external_gtest (targets : list BazelTarget) : Prop :=
  ∃ t dep, t ∈ targets ∧ dep ∈ deps t ∧
    Py.startswith dep "@" = true ∧
    (Py.contains "googletest" dep = true ∨ Py.contains "gtest" dep = true).

(** The fetch block stands in the output. *)
Definition fetch_block_emitted (lines : list string) : Prop :=
  ∃ before after, lines = before ++ fetch_googletest ++ after.

(** The two kinds of entry of the install section. *)
Definition file_install (t : BazelTarget) : list string :=
  if Py.truthy (hdrs t) then
    "install(FILES" :: (indent <$> hdrs t) ++ ["    DESTINATION include)"]
  else [].

Definition targets_install (target_names : list string) : list string :=
  if Py.truthy target_names then
    "install(TARGETS" :: (indent <$> target_names)
    ++ [ "    EXPORT ${PROJECT_NAME}Targets";
         "    LIBRARY DESTINATION lib";
         "    ARCHIVE DESTINATION lib";
         "    RUNTIME DESTINATION bin";
         "    INCLUDES DESTINATION include)" ]
  else [].

(** Lines that belong to no install section. *)
Definition not_install (line : string) : Prop :=
  line ≠ "# Install rules" ∧ Py.startswith line "install(" = false.

(** ** The command line: [main]

    [main] is modelled from the point where [parser.parse_args()] has
    returned the three options [args] (a command line that [argparse]
    rejects ends the program before that).  A path is modelled by its text
    ([str(path)]); two texts are taken to name two files.  The file system
    holds files only, so [args.build_file.exists()] is a lookup.  Python's
    compiler, which [exec] runs on the text of the descriptor, is a parameter
    of [main]: it tells a text that does not compile from a text of call
    statements with literal arguments, and gives the statements. *)

Module args.

Record t := mk {
  build_file : string;
  output : string;
  project_name : string
}.

End args.

(** What a run of the program can see and change, and the machine it runs
    on. *)
Record process := mkProcess {
  files : filesystem;
  stdout : list string;
  os : machine
}.

(** How [main] ends: it returns a code, or an exception leaves it. *)
Inductive termination :=
| Return (code : nat)
| Uncaught (e : exn).

(** [print(line)] *)
Definition print (w : process) (line : string) : process :=
  mkProcess (files w) (stdout w ++ [line]) (os w).

Section Main.

Variable py_compile : string → source.

Definition main (a : args.t) (w : process) : termination * process :=
  match files w !! args.build_file a with
  | None =>
      (Return 1,
       print w ("Error: BUILD file not found: " +:+ args.build_file a))
  | Some content =>
      let parser := BazelParser_init in
      match parse_file (py_compile content) parser with
      | (Raise e, _) => (Uncaught e, w)
      | (Ok targets, _) =>
          if negb (Py.truthy targets) then
            (Return 1, print w "No targets found in BUILD file")
          else
            let w :=
              print w ("Found " +:+ pretty (length targets) +:+ " targets:") in
            let w :=
              foldl (λ w target,
                       print w ("  - " +:+ rule_type target +:+ ": "
                                +:+ name target))
                    w targets in
            let generator := CMakeGenerator_init (args.project_name a) in
            match generate_cmake generator targets (args.output a)
                    (os w) (files w) with
            | (Raise e, fs) => (Uncaught e, mkProcess fs (stdout w) (os w))
            | (Ok _, fs) =>
                let w := mkProcess fs (stdout w) (os w) in
                (Return 0, print w ("Generated " +:+ args.output a))
            end
      end
  end.

End Main.

(** ** Vocabulary of the further properties *)

(** The identifier one dependency string resolves to, if any. *)
Definition resolve_dep (dep : string) : option string :=
  head (convert_dep [] dep).

(** Number of lines that start with a given text. *)
Definition count_prefix (p : string) (lines : list string) : nat :=
  length (filter (λ line, Py.startswith line p = true) lines).

Definition with_visibility_data (t : BazelTarget)
    (vis dat : list string) : BazelTarget :=
  mkBazelTarget (rule_type t) (name t) (hdrs t) (srcs t) (deps t) vis dat.

(** A compiler for three texts of the test suite: the descriptor of the
    first scenario (on one line), the empty text, and a text that is not
    Python. *)
Definition my_lib_text : string :=
  "load('@rules_cc//cc:cc_library.bzl', 'cc_library'); load('@rules_cc//cc:cc_test.bzl', 'cc_test'); cc_library(name = 'my_lib', hdrs = ['my_lib.h'], srcs = ['my_lib.cc'], visibility = ['//visibility:public']); cc_test(name = 'my_lib_test', srcs = ['my_lib_test.cc'], deps = [':my_lib', '@com_google_googletest//:gtest_main'])".

Definition sample_compile (text : string) : source :=
  if String.eqb text my_lib_text then my_lib_descriptor
  else if String.eqb text "" then Module []
  else Malformed.

(** A machine on which the directory [nodir] does not exist and every
    other file can be written. *)
Definition sample_os : machine :=
  mkMachine
    (λ path, if Py.startswith path "nodir/"
             then Some (OSError "FileNotFoundError") else None)
    (λ path text, None).

Definition sample_files : filesystem :=
  {[ "BUILD.bazel" := my_lib_text;
     "empty/BUILD.bazel" := "";
     "bad/BUILD.bazel" := "this is not valid python syntax {" ]}.

(** ** Strings *)

Lemma startswith_app (p s : string) : Py.startswith (p +:+ s) p = true.
Proof.
  induction p as [|c p IH]; simpl; [reflexivity|].
  rewrite Ascii.eqb_refl. exact IH.
Qed.

Lemma contains_sep (sep c : ascii) (s : string) :
  Py.contains (String sep "") (String c s)
  = Ascii.eqb c sep || Py.contains (String sep "") s.
Proof. simpl. rewrite andb_true_r. reflexivity. Qed.

Lemma contains_app_r (sub p s : string) :
  Py.contains sub s = true → Py.contains sub (p +:+ s) = true.
Proof.
  intros H. induction p as [|c p IH]; simpl; [exact H|].
  simpl in IH. rewrite IH. apply orb_true_r.
Qed.

Lemma contains_unfold (sub s : string) :
  Py.contains sub s
  = Py.startswith s sub
    || match s with EmptyString => false | String _ s' => Py.contains sub s' end.
Proof. destruct s; reflexivity. Qed.

Lemma contains_here (sub s : string) : Py.contains sub (sub +:+ s) = true.
Proof. rewrite contains_unfold, startswith_app. reflexivity. Qed.

Lemma split_nonempty (sep : ascii) (s : string) : Py.split sep s ≠ [].
Proof.
  destruct s as [|c s]; simpl; [discriminate|].
  destruct (Ascii.eqb c sep); [discriminate|].
  destruct (Py.split sep s); discriminate.
Qed.

Lemma split_no_sep (sep : ascii) (s : string) :
  Py.contains (String sep "") s = false → Py.split sep s = [s].
Proof.
  induction s as [|c s IH]; [reflexivity|].
  rewrite contains_sep. intros [Hc Hs]%orb_false_elim.
  simpl. rewrite Hc, (IH Hs). reflexivity.
Qed.

Lemma split_app_sep (sep : ascii) (p s : string) :
  Py.split sep (p +:+ String sep s) = Py.split sep p ++ Py.split sep s.
Proof.
  induction p as [|c p IH]; simpl.
  - rewrite Ascii.eqb_refl. reflexivity.
  - destruct (Ascii.eqb c sep); simpl; [by rewrite IH|].
    simpl in IH. rewrite IH.
    pose proof (split_nonempty sep p) as Hne.
    destruct (Py.split sep p); [done|reflexivity].
Qed.

Lemma last_split_app_sep (sep : ascii) (p s : string) :
  Py.contains (String sep "") s = false →
  Py.last (Py.split sep (p +:+ String sep s)) = s.
Proof.
  intros Hs. rewrite split_app_sep, (split_no_sep _ _ Hs).
  unfold Py.last. apply last_last.
Qed.

(** ** Loops that append *)

Lemma append_each_fmap {A} (f : A → string) (lines : list string) (xs : list A) :
  append_each f lines xs = lines ++ (f <$> xs).
Proof.
  unfold append_each. revert lines.
  induction xs as [|x xs IH]; intros lines; simpl.
  - by rewrite app_nil_r.
  - rewrite IH, <- app_assoc. reflexivity.
Qed.

Lemma foldl_extend {A} (f : A → list string) (lines : list string) (xs : list A) :
  foldl (λ lines x, lines ++ f x) lines xs = lines ++ (xs ≫= f).
Proof.
  revert lines. induction xs as [|x xs IH]; intros lines; simpl.
  - by rewrite app_nil_r.
  - rewrite IH, <- app_assoc. reflexivity.
Qed.

Lemma truthy_true {A} (l : list A) : Py.truthy l = true ↔ l ≠ [].
Proof. destruct l; simpl; split; congruence. Qed.

(** ** Reference resolution *)

Lemma convert_dep_acc (cmake_deps : list string) (dep : string) :
  convert_dep cmake_deps dep = cmake_deps ++ convert_dep [] dep.
Proof.
  unfold convert_dep.
  repeat match goal with |- context [if ?b then _ else _] => destruct b end;
    simpl; by rewrite ?app_nil_r.
Qed.

Lemma convert_deps_bind (bazel_deps : list string) :
  _convert_deps_to_cmake bazel_deps = bazel_deps ≫= convert_dep [].
Proof.
  unfold _convert_deps_to_cmake.
  rewrite <- (app_nil_l (bazel_deps ≫= convert_dep [])), <- foldl_extend.
  generalize (@nil string) at 1 3.
  induction bazel_deps as [|dep ds IH]; intros acc; cbn [foldl]; [reflexivity|].
  rewrite <- convert_dep_acc. apply IH.
Qed.

Lemma convert_deps_app (l1 l2 : list string) :
  _convert_deps_to_cmake (l1 ++ l2)
  = _convert_deps_to_cmake l1 ++ _convert_deps_to_cmake l2.
Proof. rewrite !convert_deps_bind. apply bind_app. Qed.

Lemma convert_deps_cons (dep : string) (l : list string) :
  _convert_deps_to_cmake (dep :: l)
  = convert_dep [] dep ++ _convert_deps_to_cmake l.
Proof. rewrite !convert_deps_bind. reflexivity. Qed.

Lemma convert_dep_resolves (dep id : string) :
  resolves dep id → convert_dep [] dep = [id].
Proof.
  intros H. unfold convert_dep. destruct H as [foo|path foo Hs Hc|path b Hs Hc Hb| |].
  - reflexivity.
  - destruct (Py.startswith (path +:+ ":" +:+ foo) ":") eqn:Hl.
    + destruct path as [|c path]; [discriminate Hs|].
      simpl in Hs, Hl. destruct (Ascii.eqb c "/") eqn:E1; [|discriminate Hs].
      apply Ascii.eqb_eq in E1. subst c. discriminate Hl.
    + rewrite Hs, (contains_app_r ":" path (":" +:+ foo) (contains_here ":" foo)).
      simpl. f_equal. apply (last_split_app_sep ":" path foo Hc).
  - destruct (Py.startswith (path +:+ "/" +:+ b) ":") eqn:Hl.
    + destruct path as [|c path]; [discriminate Hl|].
      simpl in Hs, Hl. destruct (Ascii.eqb c "/") eqn:E1; [|discriminate Hs].
      apply Ascii.eqb_eq in E1. subst c. discriminate Hl.
    + rewrite Hs, Hc. simpl. f_equal. apply (last_split_app_sep "/" path b Hb).
  - reflexivity.
  - reflexivity.
Qed.

Lemma convert_dep_unresolvable (dep : string) :
  unresolvable dep → convert_dep [] dep = [].
Proof.
  intros (H1 & H2 & H3 & H4 & H5). unfold convert_dep.
  rewrite H1, H2, H3, H4. unfold is_external_gtest in H5.
  destruct (Py.startswith dep "@"); [|reflexivity].
  simpl in H5. rewrite H5. reflexivity.
Qed.

(** C6. Reference resolution, wherever a dependency string stands in a
    dependency list: a local reference [:foo] resolves to [foo], a package
    path [//a/b:foo] to the part after the last colon, a package path [//a/b]
    without a colon to the part after the last slash; the main entry point of
    the testing framework resolves to a fixed identifier that differs from the
    one of the plain entry point. *)
Theorem C6_reference_resolution (dep id : string) (before after : list string) :
  resolves dep id →
  _convert_deps_to_cmake (before ++ dep :: after)
  = _convert_deps_to_cmake before ++ id :: _convert_deps_to_cmake after
  ∧ _convert_deps_to_cmake [gtest_main_ref] = ["GTest::gtest_main"]
  ∧ _convert_deps_to_cmake [gtest_ref] = ["GTest::gtest"]
  ∧ _convert_deps_to_cmake [gtest_main_ref] ≠ _convert_deps_to_cmake [gtest_ref].
Proof.
  intros H. split; [|by repeat split].
  rewrite convert_deps_app, convert_deps_cons, (convert_dep_resolves _ _ H).
  reflexivity.
Qed.

Lemma C6_reference_resolution_witness :
  _convert_deps_to_cmake [":foo"] = ["foo"]
  ∧ _convert_deps_to_cmake ["//a/b:foo"] = ["foo"]
  ∧ _convert_deps_to_cmake [":x"; "//a/b"; ":y"] = ["x"; "b"; "y"].
Proof.
  split; [|split].
  - apply (C6_reference_resolution ":foo" "foo" [] []). apply (resolves_local "foo").
  - apply (C6_reference_resolution "//a/b:foo" "foo" [] []).
    apply (resolves_package_target "//a/b" "foo"); reflexivity.
  - apply (C6_reference_resolution "//a/b" "b" [":x"] [":y"]).
    apply (resolves_package_path "//a" "b"); reflexivity.
Defined.

(** ** The target blocks in closed form *)

Lemma library_target_header_only (t : BazelTarget) :
  srcs t = [] → hdrs t ≠ [] →
  _generate_library_target t
  = [ "# Library: " +:+ name t;
      "add_library(" +:+ name t +:+ " INTERFACE)";
      "target_sources(" +:+ name t +:+ " INTERFACE" ]
    ++ ((λ hdr, "    ${CMAKE_CURRENT_SOURCE_DIR}/" +:+ hdr) <$> hdrs t)
    ++ [ ")";
         "target_include_directories(" +:+ name t +:+ " INTERFACE";
         "    $<BUILD_INTERFACE:${CMAKE_CURRENT_SOURCE_DIR}>";
         "    $<INSTALL_INTERFACE:include>";
         ")" ]
    ++ link_declaration ("target_link_libraries(" +:+ name t +:+ " INTERFACE")
         (_convert_deps_to_cmake (deps t)).
Proof.
  intros Hs Hh. unfold _generate_library_target, link_declaration.
  rewrite Hs. apply truthy_true in Hh. rewrite Hh. cbn [Py.truthy negb andb].
  rewrite !append_each_fmap.
  destruct (deps t) as [|d ds] eqn:Hd; cbn [Py.truthy].
  - cbn. rewrite <- ?app_assoc. reflexivity.
  - destruct (Py.truthy (_convert_deps_to_cmake (d :: ds))).
    + cbn. rewrite <- ?app_assoc. reflexivity.
    + cbn. rewrite <- ?app_assoc. reflexivity.
Qed.

Lemma library_target_compiled (t : BazelTarget) :
  srcs t ≠ [] ∨ hdrs t = [] →
  _generate_library_target t
  = [ "# Library: " +:+ name t; "add_library(" +:+ name t ]
    ++ (indent <$> srcs t ++ hdrs t)
    ++ [ ")";
         "target_include_directories(" +:+ name t +:+ " PUBLIC";
         "    $<BUILD_INTERFACE:${CMAKE_CURRENT_SOURCE_DIR}>";
         "    $<INSTALL_INTERFACE:include>";
         ")" ]
    ++ link_declaration ("target_link_libraries(" +:+ name t +:+ " PUBLIC")
         (_convert_deps_to_cmake (deps t)).
Proof.
  intros H. unfold _generate_library_target, link_declaration.
  assert (negb (Py.truthy (srcs t)) && Py.truthy (hdrs t) = false) as ->.
  { destruct H as [H| ->]; [|apply andb_false_r].
    apply truthy_true in H. by rewrite H. }
  rewrite !append_each_fmap.
  destruct (deps t) as [|d ds] eqn:Hd; cbn [Py.truthy].
  - cbn. rewrite <- ?app_assoc. reflexivity.
  - destruct (Py.truthy (_convert_deps_to_cmake (d :: ds))).
    + cbn. rewrite <- ?app_assoc. reflexivity.
    + cbn. rewrite <- ?app_assoc. reflexivity.
Qed.

Lemma test_target_shape (t : BazelTarget) :
  _generate_test_target t
  = [ "# Test: " +:+ name t; "add_executable(" +:+ name t ]
    ++ (indent <$> srcs t) ++ [")"]
    ++ link_declaration ("target_link_libraries(" +:+ name t)
         (_convert_deps_to_cmake (deps t))
    ++ [ "add_test(NAME " +:+ name t +:+ " COMMAND " +:+ name t +:+ ")" ].
Proof.
  unfold _generate_test_target, link_declaration.
  rewrite !append_each_fmap.
  destruct (Py.truthy (_convert_deps_to_cmake (deps t))).
  - rewrite ?append_each_fmap. cbn. rewrite <- ?app_assoc. reflexivity.
  - cbn. rewrite <- ?app_assoc. reflexivity.
Qed.

Lemma binary_target_shape (t : BazelTarget) :
  _generate_binary_target t
  = [ "# Binary: " +:+ name t; "add_executable(" +:+ name t ]
    ++ (indent <$> srcs t) ++ [")"]
    ++ link_declaration ("target_link_libraries(" +:+ name t)
         (_convert_deps_to_cmake (deps t)).
Proof.
  unfold _generate_binary_target, link_declaration.
  rewrite !append_each_fmap.
  destruct (Py.truthy (_convert_deps_to_cmake (deps t))).
  - rewrite ?append_each_fmap. cbn. rewrite <- ?app_assoc. reflexivity.
  - cbn. rewrite ?app_nil_r, <- ?app_assoc. reflexivity.
Qed.

(** ** The output in closed form *)

Lemma find_external_deps_inner (acc : gset string) (ds : list string) :
  foldl (λ external_deps dep,
           if Py.startswith dep "@" then
             if Py.contains "googletest" dep || Py.contains "gtest" dep
             then external_deps ∪ {["GTest"]}
             else external_deps
           else external_deps) acc ds
  = if existsb is_external_gtest ds then acc ∪ {["GTest"]} else acc.
Proof.
  revert acc. induction ds as [|d ds IH]; intros acc; cbn [foldl existsb];
    [reflexivity|].
  rewrite IH. unfold is_external_gtest at 2.
  destruct (Py.startswith d "@"); cbn [andb orb]; [|reflexivity].
  destruct (Py.contains "googletest" d || Py.contains "gtest" d);
    cbn [orb]; [|reflexivity].
  destruct (existsb is_external_gtest ds); [|reflexivity].
  by rewrite <- (assoc_L (∪)), (idemp_L (∪) _).
Qed.

Lemma find_external_deps_outer (acc : gset string) (targets : list BazelTarget) :
  foldl (λ external_deps target,
           foldl (λ external_deps dep,
                    if Py.startswith dep "@" then
                      if Py.contains "googletest" dep || Py.contains "gtest" dep
                      then external_deps ∪ {["GTest"]}
                      else external_deps
                    else external_deps)
                 external_deps (deps target))
        acc targets
  = if existsb (λ t, existsb is_external_gtest (deps t)) targets
    then acc ∪ {["GTest"]} else acc.
Proof.
  revert acc. induction targets as [|t ts IH]; intros acc;
    cbn [foldl existsb]; [reflexivity|].
  rewrite find_external_deps_inner, IH.
  destruct (existsb is_external_gtest (deps t)); cbn [orb]; [|reflexivity].
  destruct (existsb _ ts); [|reflexivity].
  by rewrite <- (assoc_L (∪)), (idemp_L (∪) _).
Qed.

Lemma find_external_deps_existsb (targets : list BazelTarget) :
  _find_external_deps targets
  = if existsb (λ t, existsb is_external_gtest (deps t)) targets
    then {["GTest"]} else ∅.
Proof.
  unfold _find_external_deps. rewrite find_external_deps_outer.
  by rewrite (left_id_L ∅ (∪)).
Qed.

Lemma existsb_uses_external_gtest (targets : list BazelTarget) :
  existsb (λ t, existsb is_external_gtest (deps t)) targets = true
  ↔ uses_external_gtest targets.
Proof.
  unfold uses_external_gtest, is_external_gtest. rewrite existsb_exists.
  split.
  - intros (t & Ht & (dep & Hd & H)%existsb_exists).
    apply andb_true_iff in H as [H1 H2]. apply orb_true_iff in H2.
    exists t, dep. by rewrite !list_elem_of_In.
  - intros (t & dep & Ht & Hd & H1 & H2). exists t.
    split; [by apply list_elem_of_In|]. apply existsb_exists. exists dep.
    split; [by apply list_elem_of_In|]. rewrite H1. by apply orb_true_iff.
Qed.

Lemma external_section_cases (targets : list BazelTarget) :
  (uses_external_gtest targets ∧
   external_section targets
   = "# External dependencies" :: fetch_googletest ++ [""])
  ∨ (¬ uses_external_gtest targets ∧ external_section targets = []).
Proof.
  unfold external_section, _generate_find_package_section.
  rewrite find_external_deps_existsb, <- existsb_uses_external_gtest.
  destruct (existsb _ targets); [left|right]; split; try done.
Qed.

Lemma generate_cmake_lines_shape (self : CMakeGenerator)
    (targets : list BazelTarget) :
  generate_cmake_lines self targets
  = _generate_header self ++ [""] ++ external_section targets
    ++ (targets ≫= λ t, _generate_target t ++ [""])
    ++ install_section targets.
Proof.
  unfold generate_cmake_lines, external_section, install_section.
  rewrite app_nil_l.
  assert (∀ lines,
    foldl (λ lines target, (lines ++ _generate_target target) ++ [""])
      lines targets
    = lines ++ (targets ≫= λ t, _generate_target t ++ [""])) as Hloop.
  { intros lines. rewrite <- foldl_extend. revert lines.
    induction targets as [|t ts IH]; intros lines; cbn [foldl];
      [reflexivity|].
    rewrite <- app_assoc. apply IH. }
  rewrite Hloop.
  destruct (bool_decide (_find_external_deps targets ≠ ∅));
    destruct (Py.truthy (library_targets_of targets));
    rewrite <- ?app_assoc, ?app_nil_r; reflexivity.
Qed.

Lemma generate_cmake_lines_block (self : CMakeGenerator)
    (targets : list BazelTarget) (t : BazelTarget) :
  t ∈ targets →
  ∃ before after,
    generate_cmake_lines self targets
    = before ++ _generate_target t ++ "" :: after.
Proof.
  intros (l1 & l2 & ->)%list_elem_of_split.
  rewrite generate_cmake_lines_shape, bind_app, bind_cons.
  exists (_generate_header self ++ [""] ++ external_section (l1 ++ t :: l2)
          ++ (l1 ≫= λ t, _generate_target t ++ [""])),
    ((l2 ≫= λ t, _generate_target t ++ [""])
     ++ install_section (l1 ++ t :: l2)).
  rewrite <- !app_assoc. reflexivity.
Qed.

(** ** Telling lines apart *)

Lemma append_inv_head (p a b : string) : p +:+ a = p +:+ b → a = b.
Proof. induction p as [|c p IH]; simpl; [done|]. intros [= H]. auto. Qed.

Lemma append_not_self (s x : string) : x ≠ "" → s +:+ x ≠ s.
Proof.
  intros Hx. induction s as [|c s IH]; simpl; [done|]. intros [= H]. auto.
Qed.

Lemma elem_of_link_declaration (line opening : string) (ids : list string) :
  line ∈ link_declaration opening ids →
  line = opening ∨ (∃ id, line = indent id) ∨ line = ")".
Proof.
  unfold link_declaration. destruct (Py.truthy ids); [|by intros ?%elem_of_nil].
  rewrite elem_of_cons, elem_of_app, list_elem_of_fmap, list_elem_of_singleton.
  intros [H|[(id & H & _)|H]]; eauto.
Qed.

Ltac split_in H :=
  repeat first
    [ apply elem_of_app in H as [H|H]
    | apply elem_of_cons in H as [H|H]
    | apply elem_of_nil in H; destruct H
    | apply list_elem_of_fmap in H as (? & H & ?)
    | apply elem_of_link_declaration in H as [H|[[? H]|H]] ].

(** C1. A library target without sources and with at least one header is
    rendered as an interface-only unit: [add_library(name INTERFACE)], every
    header listed as an interface source, and no compiled-unit declaration
    [add_library(name] in its block; a library target with sources is
    rendered as a compiled unit listing sources, then headers.  The block
    stands in the generated output. *)
Theorem C1_header_only_is_interface (self : CMakeGenerator)
    (targets : list BazelTarget) (t : BazelTarget) :
  t ∈ targets → rule_type t = "cc_library" →
  (∃ before after,
     generate_cmake_lines self targets
     = before ++ _generate_target t ++ "" :: after)
  ∧ (srcs t = [] → hdrs t ≠ [] →
     _generate_target t
     = [ "# Library: " +:+ name t;
         "add_library(" +:+ name t +:+ " INTERFACE)";
         "target_sources(" +:+ name t +:+ " INTERFACE" ]
       ++ ((λ hdr, "    ${CMAKE_CURRENT_SOURCE_DIR}/" +:+ hdr) <$> hdrs t)
       ++ [ ")";
            "target_include_directories(" +:+ name t +:+ " INTERFACE";
            "    $<BUILD_INTERFACE:${CMAKE_CURRENT_SOURCE_DIR}>";
            "    $<INSTALL_INTERFACE:include>";
            ")" ]
       ++ link_declaration
            ("target_link_libraries(" +:+ name t +:+ " INTERFACE")
            (_convert_deps_to_cmake (deps t))
     ∧ "add_library(" +:+ name t ∉ _generate_target t)
  ∧ (srcs t ≠ [] →
     _generate_target t
     = [ "# Library: " +:+ name t; "add_library(" +:+ name t ]
       ++ (indent <$> srcs t ++ hdrs t)
       ++ [ ")";
            "target_include_directories(" +:+ name t +:+ " PUBLIC";
            "    $<BUILD_INTERFACE:${CMAKE_CURRENT_SOURCE_DIR}>";
            "    $<INSTALL_INTERFACE:include>";
            ")" ]
       ++ link_declaration
            ("target_link_libraries(" +:+ name t +:+ " PUBLIC")
            (_convert_deps_to_cmake (deps t))
     ∧ "add_library(" +:+ name t +:+ " INTERFACE)" ∉ _generate_target t).
Proof.
  intros Hin Hk.
  assert (_generate_target t = _generate_library_target t) as Hgen.
  { unfold _generate_target. rewrite Hk. reflexivity. }
  split; [by apply generate_cmake_lines_block|]. rewrite Hgen. split.
  - intros Hs Hh. rewrite (library_target_header_only t Hs Hh).
    split; [reflexivity|]. intros H. split_in H;
      try (subst; discriminate H).
    apply append_inv_head in H. symmetry in H.
    by apply append_not_self in H.
  - intros Hs. rewrite (library_target_compiled t (or_introl Hs)).
    split; [reflexivity|]. intros H. split_in H;
      try (subst; discriminate H).
    apply append_inv_head in H. by apply append_not_self in H.
Qed.

Lemma C1_header_only_is_interface_witness :
  _generate_target header_only
  = [ "# Library: header_only";
      "add_library(header_only INTERFACE)";
      "target_sources(header_only INTERFACE";
      "    ${CMAKE_CURRENT_SOURCE_DIR}/template_lib.h";
      "    ${CMAKE_CURRENT_SOURCE_DIR}/inline_funcs.h";
      ")";
      "target_include_directories(header_only INTERFACE";
      "    $<BUILD_INTERFACE:${CMAKE_CURRENT_SOURCE_DIR}>";
      "    $<INSTALL_INTERFACE:include>";
      ")" ]
  ∧ "add_library(header_only" ∉ _generate_target header_only.
Proof.
  destruct (C1_header_only_is_interface (CMakeGenerator_init "header_only_project")
              [header_only] header_only) as (_ & H & _).
  - apply list_elem_of_singleton. reflexivity.
  - reflexivity.
  - apply H; [reflexivity|discriminate].
Defined.

(** C5, as the code has it.  A test target is rendered as an executable
    declaration listing its sources, then a link-dependency declaration
    exactly when some dependency resolves (listing the resolved identifiers),
    then, whatever the dependencies, a test-registration entry naming the
    executable. *)
Theorem C5_test_block (self : CMakeGenerator) (targets : list BazelTarget)
    (t : BazelTarget) :
  t ∈ targets → rule_type t = "cc_test" →
  (∃ before after,
     generate_cmake_lines self targets
     = before ++ _generate_target t ++ "" :: after)
  ∧ _generate_target t
    = [ "# Test: " +:+ name t; "add_executable(" +:+ name t ]
      ++ (indent <$> srcs t) ++ [")"]
      ++ link_declaration ("target_link_libraries(" +:+ name t)
           (_convert_deps_to_cmake (deps t))
      ++ [ "add_test(NAME " +:+ name t +:+ " COMMAND " +:+ name t +:+ ")" ]
  ∧ ("target_link_libraries(" +:+ name t ∈ _generate_target t
     ↔ _convert_deps_to_cmake (deps t) ≠ [])
  ∧ "add_test(NAME " +:+ name t +:+ " COMMAND " +:+ name t +:+ ")"
    ∈ _generate_target t.
Proof.
  intros Hin Hk.
  assert (_generate_target t = _generate_test_target t) as Hgen.
  { unfold _generate_target. rewrite Hk. reflexivity. }
  split; [by apply generate_cmake_lines_block|]. rewrite Hgen.
  rewrite test_target_shape. split; [reflexivity|]. split.
  - split.
    + intros H. unfold link_declaration in H.
      destruct (_convert_deps_to_cmake (deps t)); [|done].
      cbn [Py.truthy] in H. split_in H; subst; discriminate H.
    + intros H%truthy_true. unfold link_declaration. rewrite H.
      rewrite !elem_of_app, !elem_of_cons. auto 10.
  - rewrite !elem_of_app, !elem_of_cons. auto 10.
Qed.

Lemma C5_test_block_witness :
  _generate_target my_lib_test
  = [ "# Test: my_lib_test";
      "add_executable(my_lib_test";
      "    my_lib_test.cc";
      ")";
      "target_link_libraries(my_lib_test";
      "    my_lib";
      "    GTest::gtest_main";
      ")";
      "add_test(NAME my_lib_test COMMAND my_lib_test)" ].
Proof.
  destruct (C5_test_block (CMakeGenerator_init "test_project")
              my_lib_targets my_lib_test) as (_ & H & _).
  - apply elem_of_cons. right. apply elem_of_cons. left. reflexivity.
  - reflexivity.
  - exact H.
Defined.

(** The dependency list of [boost_test] is not empty, and its block has no
    link-dependency declaration. *)
Lemma C5_counterexample :
  rule_type boost_test = "cc_test" ∧ deps boost_test ≠ [] ∧
  ("target_link_libraries(boost_test" ∉ _generate_target boost_test) ∧
  (∀ line, line ∈ _generate_target boost_test →
     Py.startswith line "target_link_libraries(" = false).
Proof.
  split; [reflexivity|]. split; [discriminate|]. split.
  - intros H. vm_compute in H. split_in H; discriminate H.
  - intros line H. vm_compute in H. split_in H; subst; reflexivity.
Qed.

(** C7. Resolution is a total function without a failure case, and a
    dependency string that no rule matches leaves no trace: the resolved list
    and the whole block of the target are those of the dependency list
    without it. *)
Theorem C7_unresolvable_dropped (dep : string) (before after : list string)
    (t : BazelTarget) :
  unresolvable dep →
  _convert_deps_to_cmake [dep] = []
  ∧ _convert_deps_to_cmake (before ++ dep :: after)
    = _convert_deps_to_cmake (before ++ after)
  ∧ _generate_target (with_deps t (before ++ dep :: after))
    = _generate_target (with_deps t (before ++ after)).
Proof.
  intros H.
  assert (_convert_deps_to_cmake (before ++ dep :: after)
          = _convert_deps_to_cmake (before ++ after)) as Heq.
  { rewrite !convert_deps_app, convert_deps_cons.
    rewrite (convert_dep_unresolvable _ H). reflexivity. }
  split; [|split; [exact Heq|]].
  - rewrite convert_deps_cons, (convert_dep_unresolvable _ H). reflexivity.
  - unfold _generate_target. cbn [rule_type name with_deps].
    destruct (String.eqb (rule_type t) "cc_library").
    { destruct (srcs t) as [|s ss] eqn:Hs; destruct (hdrs t) as [|h hs] eqn:Hh.
      - rewrite !library_target_compiled by (by right).
        cbn [deps name srcs hdrs with_deps]. rewrite Heq. reflexivity.
      - rewrite !library_target_header_only
          by (cbn [srcs hdrs with_deps]; congruence).
        cbn [deps name srcs hdrs with_deps]. rewrite Heq. reflexivity.
      - rewrite !library_target_compiled
          by (left; cbn [srcs with_deps]; congruence).
        cbn [deps name srcs hdrs with_deps]. rewrite Heq. reflexivity.
      - rewrite !library_target_compiled
          by (left; cbn [srcs with_deps]; congruence).
        cbn [deps name srcs hdrs with_deps]. rewrite Heq. reflexivity. }
    destruct (String.eqb (rule_type t) "cc_test").
    { rewrite !test_target_shape. cbn [deps name srcs with_deps].
      rewrite Heq. reflexivity. }
    destruct (String.eqb (rule_type t) "cc_binary"); [|reflexivity].
    rewrite !binary_target_shape. cbn [deps name srcs with_deps].
    rewrite Heq. reflexivity.
Qed.

Lemma C7_unresolvable_dropped_witness :
  _convert_deps_to_cmake [":my_lib"; "@boost//:filesystem"; gtest_ref]
  = _convert_deps_to_cmake [":my_lib"; gtest_ref].
Proof.
  apply (C7_unresolvable_dropped "@boost//:filesystem" [":my_lib"] [gtest_ref]
           my_lib_test).
  repeat split; reflexivity.
Defined.

(** ** Where the fetch block and the install section can stand *)

Lemma install_rules_shape (library_targets : list BazelTarget) :
  _generate_install_rules library_targets
  = "# Install rules" :: (library_targets ≫= file_install)
    ++ targets_install (name <$> library_targets).
Proof.
  unfold _generate_install_rules, targets_install.
  assert (∀ lines,
    foldl (λ lines target,
             if Py.truthy (hdrs target) then
               let lines := lines ++ ["install(FILES"] in
               let lines := append_each indent lines (hdrs target) in
               lines ++ ["    DESTINATION include)"]
             else lines) lines library_targets
    = lines ++ (library_targets ≫= file_install)) as ->.
  { intros lines. rewrite <- foldl_extend. revert lines.
    induction library_targets as [|t ts IH]; intros lines; cbn [foldl];
      [reflexivity|].
    rewrite IH. f_equal. unfold file_install.
    destruct (Py.truthy (hdrs t)); [|by rewrite app_nil_r].
    cbn zeta. rewrite append_each_fmap, <- !app_assoc. reflexivity. }
  destruct (Py.truthy (name <$> library_targets)).
  - cbn zeta. rewrite append_each_fmap, <- !app_assoc. reflexivity.
  - by rewrite app_nil_r.
Qed.

Lemma target_comment_not_install (rt n : string) :
  "# " +:+ rt +:+ ": " +:+ n ≠ "# Install rules".
Proof.
  intros H. apply (append_inv_head "# ") in H.
  assert (Py.contains ":" (rt +:+ ": " +:+ n) = true) as Hc
    by (apply contains_app_r; reflexivity).
  rewrite H in Hc. discriminate Hc.
Qed.

Lemma target_lines (t : BazelTarget) (line : string) :
  line ∈ _generate_target t →
  Py.startswith line "F" = false ∧ not_install line.
Proof.
  unfold _generate_target, not_install.
  destruct (String.eqb (rule_type t) "cc_library").
  { destruct (srcs t) as [|s ss] eqn:Hs; destruct (hdrs t) as [|h hs] eqn:Hh.
    - rewrite library_target_compiled by (by right).
      intros H. split_in H; subst; by repeat split.
    - rewrite library_target_header_only by congruence.
      intros H. split_in H; subst; by repeat split.
    - rewrite library_target_compiled by (left; congruence).
      intros H. split_in H; subst; by repeat split.
    - rewrite library_target_compiled by (left; congruence).
      intros H. split_in H; subst; by repeat split. }
  destruct (String.eqb (rule_type t) "cc_test").
  { rewrite test_target_shape. intros H. split_in H; subst; by repeat split. }
  destruct (String.eqb (rule_type t) "cc_binary").
  { rewrite binary_target_shape. intros H. split_in H; subst; by repeat split. }
  intros ->%list_elem_of_singleton.
  split; [reflexivity|]. split; [apply target_comment_not_install|reflexivity].
Qed.

Lemma target_blocks_lines (targets : list BazelTarget) (line : string) :
  line ∈ targets ≫= (λ t, _generate_target t ++ [""]) →
  Py.startswith line "F" = false ∧ not_install line.
Proof.
  intros (t & H & _)%list_elem_of_bind.
  apply elem_of_app in H as [H| ->%list_elem_of_singleton];
    [by apply (target_lines t)|by repeat split].
Qed.

Lemma header_lines (self : CMakeGenerator) (line : string) :
  line ∈ _generate_header self ++ [""] →
  Py.startswith line "F" = false ∧ not_install line.
Proof.
  unfold _generate_header, not_install. intros H.
  split_in H; subst; by repeat split.
Qed.

Lemma install_section_lines (targets : list BazelTarget) (line : string) :
  line ∈ install_section targets → Py.startswith line "F" = false.
Proof.
  unfold install_section. destruct (Py.truthy _); [|by intros ?%elem_of_nil].
  rewrite install_rules_shape.
  intros [->|H]%elem_of_cons; [reflexivity|].
  apply elem_of_app in H as [H|H].
  - apply list_elem_of_bind in H as (t & H & _). unfold file_install in H.
    destruct (Py.truthy (hdrs t)); split_in H; subst; reflexivity.
  - unfold targets_install in H.
    destruct (Py.truthy _); split_in H; subst; reflexivity.
Qed.

Lemma external_section_lines (targets : list BazelTarget) (line : string) :
  line ∈ external_section targets → not_install line.
Proof.
  destruct (external_section_cases targets) as [[_ ->]|[_ ->]];
    [|by intros ?%elem_of_nil].
  unfold fetch_googletest, not_install. intros H.
  split_in H; subst; by repeat split.
Qed.

Lemma fetch_line_needs_external_gtest (self : CMakeGenerator)
    (targets : list BazelTarget) :
  "FetchContent_Declare(" ∈ generate_cmake_lines self targets →
  uses_external_gtest targets.
Proof.
  rewrite generate_cmake_lines_shape, app_assoc.
  intros H. apply elem_of_app in H as [H|H];
    [by apply header_lines in H as [? _]|].
  apply elem_of_app in H as [H|H].
  { destruct (external_section_cases targets) as [[Hu _]|[_ Hn]]; [done|].
    rewrite Hn in H. by apply elem_of_nil in H. }
  apply elem_of_app in H as [H|H].
  - by apply target_blocks_lines in H as [? _].
  - by apply install_section_lines in H.
Qed.

(** C4, as the code has it.  The fetch block for the testing framework,
    pinned to the tag v1.14.0, stands in the output if and only if some
    dependency string of some target starts with [@] and contains
    [googletest] or [gtest] (compared character by character). *)
Theorem C4_fetch_block (self : CMakeGenerator) (targets : list BazelTarget) :
  (fetch_block_emitted (generate_cmake_lines self targets)
   ↔ uses_external_gtest targets)
  ∧ "    GIT_TAG        v1.14.0" ∈ fetch_googletest.
Proof.
  split.
  - split.
    + intros (before & after & Heq).
      apply (fetch_line_needs_external_gtest self). rewrite Heq.
      apply elem_of_app. right. apply elem_of_app. left.
      unfold fetch_googletest. rewrite !elem_of_cons. auto 10.
    + intros Hu. rewrite generate_cmake_lines_shape.
      destruct (external_section_cases targets) as [[_ ->]|[Hn _]]; [|done].
      exists (_generate_header self ++ [""] ++ ["# External dependencies"]),
        ([""] ++ (targets ≫= λ t, _generate_target t ++ [""])
         ++ install_section targets).
      rewrite <- !app_assoc. reflexivity.
  - unfold fetch_googletest. rewrite !elem_of_cons. auto 10.
Qed.

Lemma C4_fetch_block_witness :
  fetch_block_emitted
    (generate_cmake_lines (CMakeGenerator_init "test_project") my_lib_targets).
Proof.
  apply (C4_fetch_block (CMakeGenerator_init "test_project") my_lib_targets).
  exists my_lib_test, gtest_main_ref.
  split; [apply elem_of_cons; right; apply elem_of_cons; left; reflexivity|].
  split; [apply elem_of_cons; right; apply elem_of_cons; left; reflexivity|].
  split; [reflexivity|left; reflexivity].
Defined.

(** The only dependency of [helper_test], [:gtest_helpers], contains
    [gtest], and the output has no fetch block. *)
Lemma C4_counterexample :
  (∃ t dep, t ∈ [helper_test] ∧ dep ∈ deps t ∧
     (Py.contains "googletest" dep = true ∨ Py.contains "gtest" dep = true))
  ∧ ¬ fetch_block_emitted
        (generate_cmake_lines (CMakeGenerator_init default_project_name)
           [helper_test]).
Proof.
  split.
  - exists helper_test, ":gtest_helpers".
    split; [apply list_elem_of_singleton; reflexivity|].
    split; [apply list_elem_of_singleton; reflexivity|].
    right. reflexivity.
  - intros (before & after & Heq).
    assert ("FetchContent_Declare("
            ∈ generate_cmake_lines (CMakeGenerator_init default_project_name)
                [helper_test]) as H.
    { rewrite Heq. apply elem_of_app. right. apply elem_of_app. left.
      unfold fetch_googletest. rewrite !elem_of_cons. auto 10. }
    vm_compute in H. split_in H; discriminate H.
Qed.

(** ** The install section *)

Lemma count_file_install (library_targets : list BazelTarget) :
  length (filter (λ line, line = "install(FILES")
            (library_targets ≫= file_install))
  = length (filter (λ t, hdrs t ≠ []) library_targets).
Proof.
  induction library_targets as [|t ts IH]; [reflexivity|].
  rewrite bind_cons, filter_app, length_app, IH, filter_cons.
  unfold file_install.
  destruct (hdrs t) as [|h hs]; cbn [Py.truthy].
  - rewrite decide_False by auto. reflexivity.
  - rewrite decide_True by discriminate.
    rewrite filter_cons_True, filter_app by reflexivity.
    assert (filter (λ line, line = "install(FILES") (indent <$> h :: hs) = [])
      as ->.
    { generalize (h :: hs). intros l. induction l as [|x l IHl]; [reflexivity|].
      rewrite fmap_cons, filter_cons_False by discriminate. exact IHl. }
    reflexivity.
Qed.

Lemma count_targets_install (p : string → Prop) `{∀ x, Decision (p x)}
    (target_names : list string) :
  (∀ x, ¬ p (indent x)) →
  length (filter p (targets_install target_names))
  = if Py.truthy target_names
    then (if decide (p "install(TARGETS") then 1 else 0) else 0.
Proof.
  intros Hi. unfold targets_install.
  destruct (Py.truthy target_names); [|reflexivity].
  rewrite filter_cons, filter_app.
  assert (filter p (indent <$> target_names) = []) as ->.
  { induction target_names as [|x l IHl]; [reflexivity|].
    rewrite fmap_cons, filter_cons_False by apply Hi. exact IHl. }
  rewrite !filter_cons_False by apply (Hi _).
  by destruct (decide _).
Qed.

Lemma elem_of_library_targets_of (targets : list BazelTarget) (t : BazelTarget) :
  t ∈ library_targets_of targets ↔ t ∈ targets ∧ rule_type t = "cc_library".
Proof.
  unfold library_targets_of. rewrite list_elem_of_filter, String.eqb_eq. tauto.
Qed.

Lemma truthy_library_targets_of (targets : list BazelTarget) :
  Py.truthy (library_targets_of targets) = true
  ↔ ∃ t, t ∈ targets ∧ rule_type t = "cc_library".
Proof.
  rewrite truthy_true. split.
  - pose proof (elem_of_library_targets_of targets) as Hlib.
    destruct (library_targets_of targets) as [|t l]; [done|].
    intros _. exists t. apply Hlib. by left.
  - intros (t & Ht%elem_of_library_targets_of) E. rewrite E in Ht.
    by apply elem_of_nil in Ht.
Qed.

Lemma install_section_shape (targets : list BazelTarget) :
  Py.truthy (library_targets_of targets) = true →
  install_section targets
  = "# Install rules" :: (library_targets_of targets ≫= file_install)
    ++ targets_install (name <$> library_targets_of targets).
Proof.
  intros E. unfold install_section. rewrite E. apply install_rules_shape.
Qed.

Lemma install_section_empty (targets : list BazelTarget) :
  Py.truthy (library_targets_of targets) = false →
  install_section targets = [] ∧ library_targets_of targets = [].
Proof.
  intros E. unfold install_section. rewrite E. split; [reflexivity|].
  by destruct (library_targets_of targets).
Qed.

Lemma library_targets_of_idemp (targets : list BazelTarget) :
  library_targets_of (library_targets_of targets) = library_targets_of targets.
Proof.
  unfold library_targets_of. induction targets as [|t ts IH]; [reflexivity|].
  rewrite filter_cons. destruct (decide _) as [E|E]; [|exact IH].
  rewrite filter_cons_True by exact E. f_equal. exact IH.
Qed.

Lemma no_targets_install_in_file_install (library_targets : list BazelTarget) :
  filter (λ line, line = "install(TARGETS") (library_targets ≫= file_install)
  = [].
Proof.
  induction library_targets as [|t l IHl]; [reflexivity|].
  rewrite bind_cons, filter_app, IHl, app_nil_r. unfold file_install.
  destruct (Py.truthy (hdrs t)); [|reflexivity].
  rewrite filter_cons_False, filter_app by discriminate.
  assert (filter (λ line, line = "install(TARGETS") (indent <$> hdrs t) = [])
    as ->; [|reflexivity].
  induction (hdrs t) as [|x xs IHx]; [reflexivity|].
  rewrite fmap_cons, filter_cons_False by discriminate. exact IHx.
Qed.

Lemma install_section_provenance (targets : list BazelTarget) (line : string) :
  line ∈ install_section targets →
  line ∈ [ "# Install rules"; "install(FILES"; "    DESTINATION include)";
           "install(TARGETS"; "    EXPORT ${PROJECT_NAME}Targets";
           "    LIBRARY DESTINATION lib"; "    ARCHIVE DESTINATION lib";
           "    RUNTIME DESTINATION bin";
           "    INCLUDES DESTINATION include)" ]
  ∨ ∃ t, t ∈ targets ∧ rule_type t = "cc_library" ∧
         (line = indent (name t) ∨ ∃ hdr, hdr ∈ hdrs t ∧ line = indent hdr).
Proof.
  destruct (Py.truthy (library_targets_of targets)) eqn:E;
    [|apply install_section_empty in E as [-> _]; by intros ?%elem_of_nil].
  rewrite (install_section_shape _ E).
  intros [->|H]%elem_of_cons; [left; rewrite !elem_of_cons; auto 10|].
  apply elem_of_app in H as [H|H].
  - apply list_elem_of_bind in H as (t & H & [Ht Hk]%elem_of_library_targets_of).
    unfold file_install in H.
    destruct (Py.truthy (hdrs t)); [|by apply elem_of_nil in H].
    apply elem_of_cons in H as [->|H]; [left; rewrite !elem_of_cons; auto 10|].
    apply elem_of_app in H as [H| ->%list_elem_of_singleton];
      [|left; rewrite !elem_of_cons; auto 10].
    apply list_elem_of_fmap in H as (hdr & -> & Hh).
    right. exists t. eauto 10.
  - unfold targets_install in H.
    destruct (Py.truthy (name <$> _)); [|by apply elem_of_nil in H].
    apply elem_of_cons in H as [->|H]; [left; rewrite !elem_of_cons; auto 10|].
    apply elem_of_app in H as [H|H];
      [|split_in H; subst; left; rewrite !elem_of_cons; auto 10].
    apply list_elem_of_fmap in H as (n & -> & Hn).
    apply list_elem_of_fmap in Hn as (t & -> & [Ht Hk]%elem_of_library_targets_of).
    right. exists t. eauto 10.
Qed.

(** C8. The install section stands at the end of the output and only when
    there is a library target.  It holds, for every library target with
    headers, one [install(FILES] block of its headers with destination
    [include], then one [install(TARGETS] declaration naming every library
    target; every entry comes from a library target, so test and binary
    targets do not appear in it. *)
Theorem C8_install_section (self : CMakeGenerator) (targets : list BazelTarget) :
  (∃ body,
     generate_cmake_lines self targets = body ++ install_section targets
     ∧ ∀ line, line ∈ body → not_install line)
  ∧ (install_section targets ≠ []
     ↔ ∃ t, t ∈ targets ∧ rule_type t = "cc_library")
  ∧ ((∃ t, t ∈ targets ∧ rule_type t = "cc_library") →
     install_section targets
     = "# Install rules"
       :: (library_targets_of targets ≫=
             (λ t, if Py.truthy (hdrs t) then
                     "install(FILES" :: (indent <$> hdrs t)
                     ++ ["    DESTINATION include)"]
                   else []))
       ++ "install(TARGETS"
          :: (indent <$> (name <$> library_targets_of targets))
       ++ [ "    EXPORT ${PROJECT_NAME}Targets";
            "    LIBRARY DESTINATION lib";
            "    ARCHIVE DESTINATION lib";
            "    RUNTIME DESTINATION bin";
            "    INCLUDES DESTINATION include)" ])
  ∧ (∀ t, t ∈ library_targets_of targets
          ↔ t ∈ targets ∧ rule_type t = "cc_library")
  ∧ length (filter (λ line, line = "install(FILES") (install_section targets))
    = length (filter (λ t, hdrs t ≠ []) (library_targets_of targets))
  ∧ length (filter (λ line, line = "install(TARGETS") (install_section targets))
    = (if Py.truthy (library_targets_of targets) then 1 else 0)
  ∧ install_section targets = install_section (library_targets_of targets)
  ∧ (∀ line, line ∈ install_section targets →
       line ∈ [ "# Install rules"; "install(FILES"; "    DESTINATION include)";
                "install(TARGETS"; "    EXPORT ${PROJECT_NAME}Targets";
                "    LIBRARY DESTINATION lib"; "    ARCHIVE DESTINATION lib";
                "    RUNTIME DESTINATION bin";
                "    INCLUDES DESTINATION include)" ]
       ∨ ∃ t, t ∈ targets ∧ rule_type t = "cc_library" ∧
              (line = indent (name t) ∨ ∃ hdr, hdr ∈ hdrs t ∧ line = indent hdr)).
Proof.
  split; [|split; [|split; [|split; [|split; [|split; [|split]]]]]].
  - exists (_generate_header self ++ [""] ++ external_section targets
            ++ (targets ≫= λ t, _generate_target t ++ [""])).
    split; [rewrite generate_cmake_lines_shape, <- !app_assoc; reflexivity|].
    intros line H. rewrite app_assoc in H. apply elem_of_app in H as [H|H];
      [by apply header_lines in H as [_ ?]|].
    apply elem_of_app in H as [H|H];
      [by apply external_section_lines in H|].
    by apply target_blocks_lines in H as [_ ?].
  - rewrite <- truthy_library_targets_of.
    destruct (Py.truthy (library_targets_of targets)) eqn:E.
    + rewrite (install_section_shape _ E). split; [done|discriminate].
    + apply install_section_empty in E as [-> _]. split; [done|discriminate].
  - intros E%truthy_library_targets_of.
    rewrite (install_section_shape _ E). unfold targets_install.
    apply truthy_true in E.
    destruct (library_targets_of targets); [done|reflexivity].
  - apply elem_of_library_targets_of.
  - destruct (Py.truthy (library_targets_of targets)) eqn:E.
    + rewrite (install_section_shape _ E), filter_cons_False, filter_app,
        length_app by discriminate.
      rewrite count_file_install.
      rewrite (count_targets_install (λ line, line = "install(FILES"))
        by discriminate.
      rewrite decide_False by discriminate.
      destruct (Py.truthy (name <$> _)); apply Nat.add_0_r.
    + apply install_section_empty in E as [-> ->]. reflexivity.
  - destruct (Py.truthy (library_targets_of targets)) eqn:E.
    + rewrite (install_section_shape _ E), filter_cons_False, filter_app,
        length_app by discriminate.
      rewrite no_targets_install_in_file_install.
      rewrite (count_targets_install (λ line, line = "install(TARGETS"))
        by discriminate.
      rewrite decide_True by reflexivity.
      apply truthy_true in E.
      destruct (library_targets_of targets); [done|reflexivity].
    + apply install_section_empty in E as [-> _]. reflexivity.
  - unfold install_section. rewrite library_targets_of_idemp. reflexivity.
  - apply install_section_provenance.
Qed.

Lemma C8_install_section_witness :
  install_section my_lib_targets
  = [ "# Install rules";
      "install(FILES";
      "    my_lib.h";
      "    DESTINATION include)";
      "install(TARGETS";
      "    my_lib";
      "    EXPORT ${PROJECT_NAME}Targets";
      "    LIBRARY DESTINATION lib";
      "    ARCHIVE DESTINATION lib";
      "    RUNTIME DESTINATION bin";
      "    INCLUDES DESTINATION include)" ].
Proof.
  destruct (C8_install_section (CMakeGenerator_init "test_project")
              my_lib_targets) as (_ & _ & H & _).
  apply H. exists my_lib. split; [|reflexivity].
  apply elem_of_cons. left. reflexivity.
Defined.

(** ** Writing the output *)





(** ** The parser *)

Lemma populate_target_init (rule n : string) (kw : gmap string value) :
  _populate_target (BazelTarget_init rule n) kw
  = mkBazelTarget rule n
      (listify (kw !! "hdrs")) (listify (kw !! "srcs"))
      (listify (kw !! "deps")) (listify (kw !! "visibility"))
      (listify (kw !! "data")).
Proof.
  unfold _populate_target, BazelTarget_init. cbn [foldl].
  destruct (kw !! "hdrs") as [[]|]; destruct (kw !! "srcs") as [[]|];
    destruct (kw !! "deps") as [[]|]; destruct (kw !! "visibility") as [[]|];
    destruct (kw !! "data") as [[]|]; reflexivity.
Qed.

Lemma is_rule_cases (id : string) :
  is_rule id = true → id = "cc_library" ∨ id = "cc_test" ∨ id = "cc_binary".
Proof.
  unfold is_rule. rewrite !orb_true_iff, !String.eqb_eq. tauto.
Qed.

Lemma exec_globals_bound :
  exec_globals !! "load" = Some load
  ∧ exec_globals !! "cc_library" = Some cc_library
  ∧ exec_globals !! "cc_test" = Some cc_test
  ∧ exec_globals !! "cc_binary" = Some cc_binary.
Proof. repeat split; vm_compute; reflexivity. Qed.

Lemma exec_stmt_recognized (c : call) (self : BazelParser) :
  recognized c →
  exec_stmt exec_globals c self
  = (Ok (), mkBazelParser (targets self ++ declared c)).
Proof.
  destruct exec_globals_bound as (Gl & Glib & Gtest & Gbin).
  unfold exec_stmt, declared. intros [Hl|[Hr Ha]].
  - rewrite Hl, Gl. cbn [call_mock is_rule String.eqb Ascii.eqb Bool.eqb orb].
    rewrite app_nil_r. by destruct self.
  - destruct c as [id a n kw]. cbn [callee args] in *. subst a. rewrite Hr.
    apply is_rule_cases in Hr as [->|[->| ->]];
      rewrite ?Glib, ?Gtest, ?Gbin;
      unfold call_mock, record_target, declared_target, get_name;
      cbn [callee args name_kw kwargs];
      by rewrite populate_target_init.
Qed.

Lemma exec_body_recognized (body : list call) (self : BazelParser) :
  Forall recognized body →
  exec_body exec_globals body self
  = (Ok (), mkBazelParser (targets self ++ (body ≫= declared))).
Proof.
  intros H. revert self. induction H as [|c body Hc _ IH]; intros self.
  - cbn. rewrite app_nil_r. by destruct self.
  - cbn [exec_body]. rewrite (exec_stmt_recognized c self Hc), IH.
    cbn [targets]. by rewrite bind_cons, app_assoc.
Qed.

Lemma exec_body_app (globals : gmap string mock) (pre post : list call)
    (self : BazelParser) :
  exec_body globals (pre ++ post) self
  = match exec_body globals pre self with
    | (Ok _, self') => exec_body globals post self'
    | (Raise e, self') => (Raise e, self')
    end.
Proof.
  revert self. induction pre as [|c pre IH]; intros self; [reflexivity|].
  cbn [app exec_body]. destruct (exec_stmt globals c self) as [[[]|e] self'];
    [apply IH|reflexivity].
Qed.






(** *** Statements with argument expressions *)

Lemma eval_args_literal (es : list expr) (vs : list value) :
  mapM literal es = Some vs → eval_args es = Some (Ok vs).
Proof.
  rewrite mapM_Some. induction 1 as [|e v es vs He _ IH]; [reflexivity|].
  destruct e as [v'|f]; [|discriminate He]. injection He as ->.
  cbn [eval_args]. by rewrite IH.
Qed.

Lemma eval_args_failure (es : list expr) (e : exn) :
  eval_args es = Some (Raise e) →
  ∃ f, e = NameError f ∧ Nested f ∈ es ∧ bound f = false.
Proof.
  induction es as [|[v|f] es IH]; cbn [eval_args]; [discriminate| |].
  - destruct (eval_args es) as [[vs|e']|]; [discriminate| |discriminate].
    intros [= ->]. destruct IH as (f & -> & Hin & Hf); [reflexivity|].
    exists f. repeat split; [by right|exact Hf].
  - destruct (bound f) eqn:Hf; [discriminate|]. intros [= <-].
    exists f. repeat split; [by left|exact Hf].
Qed.

Lemma as_call_callee (s : stmt) (vs : list value) (c : call) :
  as_call s vs = Some c → callee c = fn s.
Proof.
  unfold as_call.
  destruct (_ !! "name") as [[name|l]|]; [|discriminate|];
    by intros [= <-].
Qed.

Lemma call_mock_failure (f : mock) (c : call) (self : BazelParser) (e : exn) :
  (call_mock f c self).1 = Raise e → e = TypeError (callee c) ∧ args c ≠ [].
Proof.
  destruct f; cbn [call_mock]; unfold record_target;
    try destruct (args c); cbn [fst]; intros [= <-]; by split.
Qed.

(** On a statement with literal arguments that calls no builtin, [exec_stmt]
    is what the evaluation of the statement gives. *)
Lemma run_stmt_literal (s : stmt) (c : call) (self : BazelParser) :
  literal_call s = Some c → calls_no_builtin c →
  run_stmt s self = Some (exec_stmt exec_globals c self).
Proof.
  unfold literal_call. destruct (distinct_keywords s); [|discriminate].
  destruct (mapM literal (positional s ++ (keywords s).*2)) as [vs|] eqn:Hvs;
    [|discriminate].
  cbn [mbind option_bind]. intros Hc Hb.
  pose proof (as_call_callee s vs c Hc) as Hfn.
  unfold run_stmt, exec_stmt. rewrite Hfn.
  destruct (exec_globals !! fn s) as [f|].
  - by rewrite (eval_args_literal _ _ Hvs), Hc.
  - rewrite bool_decide_eq_false_2; [reflexivity|].
    unfold calls_no_builtin in Hb. by rewrite Hfn in Hb.
Qed.

Lemma literal_call_distinct (s : stmt) (c : call) :
  literal_call s = Some c → distinct_keywords s = true.
Proof. unfold literal_call. by destruct (distinct_keywords s). Qed.

Lemma run_literal (stmts : list stmt) (body : list call) (self : BazelParser) :
  Forall2 (λ s c, literal_call s = Some c) stmts body →
  Forall calls_no_builtin body →
  run stmts self = Some (exec_body exec_globals body self).
Proof.
  intros H Hb. unfold run.
  assert (forallb distinct_keywords stmts = true) as ->.
  { clear Hb. induction H as [|s c stmts body Hs _ IH]; [reflexivity|].
    cbn [forallb]. by rewrite (literal_call_distinct s c Hs), IH. }
  revert self Hb. induction H as [|s c stmts body Hs _ IH]; intros self Hb;
    [reflexivity|].
  apply Forall_cons in Hb as [Hc Hb]. cbn [run_stmts exec_body].
  rewrite (run_stmt_literal s c self Hs Hc).
  destruct (exec_stmt exec_globals c self) as [[[]|e] self'];
    [by apply IH|reflexivity].
Qed.

Lemma run_stmt_failure (s : stmt) (self : BazelParser)
    (r : result unit * BazelParser) (e : exn) :
  run_stmt s self = Some r → r.1 = Raise e →
  (e = NameError (fn s) ∧ bound (fn s) = false)
  ∨ (∃ f, e = NameError f ∧ Nested f ∈ positional s ++ (keywords s).*2
          ∧ bound f = false)
  ∨ (e = TypeError (fn s) ∧ positional s ≠ []).
Proof.
  unfold run_stmt. destruct (exec_globals !! fn s) as [f|] eqn:Hfn.
  - destruct (eval_args (positional s ++ (keywords s).*2)) as [[vs|e']|] eqn:Hvs;
      [| |discriminate].
    + destruct (as_call s vs) as [c|] eqn:Hc; [|discriminate].
      intros [= <-] (-> & Hargs)%call_mock_failure.
      right. right. rewrite (as_call_callee s vs c Hc). split; [reflexivity|].
      intros Hp. apply Hargs. revert Hc. unfold as_call. rewrite Hp.
      destruct (_ !! "name") as [[name|l]|]; [|discriminate|];
        by intros [= <-].
    + intros [= <-]. cbn [fst]. intros [= <-].
      right. left. by apply eval_args_failure.
    
  - destruct (bool_decide (fn s ∈ python_builtins)) eqn:Hb; [discriminate|].
    intros [= <-]. cbn [fst]. intros [= <-]. left. split; [reflexivity|].
    unfold bound. rewrite Hb, Hfn. reflexivity.
Qed.

Lemma run_failure (stmts : list stmt) (self : BazelParser)
    (r : result unit * BazelParser) (e : exn) :
  run stmts self = Some r → r.1 = Raise e →
  ∃ s, s ∈ stmts ∧
    ((e = NameError (fn s) ∧ bound (fn s) = false)
     ∨ (∃ f, e = NameError f ∧ Nested f ∈ positional s ++ (keywords s).*2
             ∧ bound f = false)
     ∨ (e = TypeError (fn s) ∧ positional s ≠ [])).
Proof.
  unfold run. destruct (forallb distinct_keywords stmts); [|discriminate].
  revert self. induction stmts as [|s stmts IH]; intros self;
    cbn [run_stmts].
  - intros [= <-]. discriminate.
  - pose proof (run_stmt_failure s self) as Hs.
    destruct (run_stmt s self) as [[[[]|e'] self']|]; [| |discriminate].
    + intros H He. destruct (IH self' H He) as (s' & Hin & Hcase).
      exists s'. split; [by right|exact Hcase].
    + intros [= <-]. cbn [fst]. intros [= <-].
      exists s. split; [by left|]. by eapply Hs.
Qed.

Lemma recognized_no_builtin (c : call) : recognized c → calls_no_builtin c.
Proof.
  unfold calls_no_builtin.
  assert (∀ id, id ∈ ["load"; "cc_library"; "cc_test"; "cc_binary"] →
                id ∉ python_builtins) as H.
  { apply Forall_forall. apply (bool_decide_unpack _). vm_compute. exact I. }
  intros [Hl|[Hr _]]; apply H.
  - rewrite Hl. by left.
  - unfold is_rule in Hr.
    apply orb_true_iff in Hr as [Hr|Hr];
      [apply orb_true_iff in Hr as [Hr|Hr]|];
      apply String.eqb_eq in Hr; rewrite Hr;
      repeat first [by left|right].
Qed.

(** The statement [cc_library(name = "a", hdrs = glob(["*.h"]))] invokes a
    known rule with keyword arguments only, and fails: nothing binds
    [glob]. *)
Lemma glob_library_raises :
  run [glob_library] BazelParser_init
  = Some (Raise (NameError "glob"), BazelParser_init).
Proof. vm_compute. reflexivity. Qed.

(** C2, as the code has it.  A descriptor that compiles and whose statements
    are all [load] statements or keyword-only invocations of the three known
    rules, with arguments that are string literals or lists of string
    literals and a [name] that is a string literal, parses successfully: the
    [load] statements contribute no target, and every rule invocation is
    recorded, in order, with its kind, its name and its five attributes,
    after the targets the parser already held.  Evaluating the statements
    one by one, arguments first, gives the same. *)
Theorem C2_recognized_vocabulary (body : list call) (self : BazelParser) :
  Forall recognized body →
  parse_file (Module body) self
  = (Ok (targets self ++ (body ≫= declared)),
     mkBazelParser (targets self ++ (body ≫= declared)))
  ∧ (∀ c, c ∈ body → callee c = "load" → declared c = [])
  ∧ (∀ c, c ∈ body → callee c ≠ "load" →
       declared c
       = [ mkBazelTarget (callee c) (default "" (name_kw c))
             (listify (kwargs c !! "hdrs")) (listify (kwargs c !! "srcs"))
             (listify (kwargs c !! "deps"))
             (listify (kwargs c !! "visibility"))
             (listify (kwargs c !! "data")) ])
  ∧ (∀ stmts,
       Forall2 (λ s c, literal_call s = Some c) stmts body →
       run stmts self
       = Some (Ok (), mkBazelParser (targets self ++ (body ≫= declared)))).
Proof.
  intros H. split; [|split; [|split]].
  - unfold parse_file, exec. rewrite (exec_body_recognized body self H).
    reflexivity.
  - intros c _ Hl. unfold declared. rewrite Hl. reflexivity.
  - intros c Hc Hl. rewrite Forall_forall in H.
    destruct (H c Hc) as [?|[Hr _]]; [done|].
    unfold declared. rewrite Hr. reflexivity.
  - intros stmts Hs. rewrite (run_literal stmts body self Hs).
    + by rewrite (exec_body_recognized body self H).
    + eapply Forall_impl; [exact H|]. apply recognized_no_builtin.
Qed.

Lemma C2_recognized_vocabulary_witness :
  parse_file my_lib_descriptor BazelParser_init
  = (Ok my_lib_targets, mkBazelParser my_lib_targets)
  ∧ run my_lib_stmts BazelParser_init
    = Some (Ok (), mkBazelParser [my_lib]).
Proof.
  split.
  - destruct (C2_recognized_vocabulary
                [ Call "load"
                    [Str "@rules_cc//cc:cc_library.bzl"; Str "cc_library"]
                    None ∅;
                  Call "load" [Str "@rules_cc//cc:cc_test.bzl"; Str "cc_test"]
                    None ∅;
                  Call "cc_library" [] (Some "my_lib")
                    {[ "hdrs" := Strs ["my_lib.h"];
                       "srcs" := Strs ["my_lib.cc"];
                       "visibility" := Strs ["//visibility:public"] ]};
                  Call "cc_test" [] (Some "my_lib_test")
                    {[ "srcs" := Strs ["my_lib_test.cc"];
                       "deps" := Strs [":my_lib";
                                       "@com_google_googletest//:gtest_main"] ]} ]
                BazelParser_init) as [H _].
    + repeat apply Forall_cons_2; [left|left|right|right|apply Forall_nil_2];
        repeat split; reflexivity.
    + etrans; [exact H|]. vm_compute. reflexivity.
  - destruct (C2_recognized_vocabulary
                [ Call "load"
                    [Str "@rules_cc//cc:cc_library.bzl"; Str "cc_library"]
                    None ∅;
                  Call "cc_library" [] (Some "my_lib")
                    {[ "hdrs" := Strs ["my_lib.h"];
                       "srcs" := Strs ["my_lib.cc"];
                       "visibility" := Strs ["//visibility:public"] ]} ]
                BazelParser_init) as (_ & _ & _ & H).
    + repeat apply Forall_cons_2; [left|right|apply Forall_nil_2];
        repeat split; reflexivity.
    + etrans; [apply H|vm_compute; reflexivity].
      repeat constructor; vm_compute; reflexivity.
Defined.

(** The descriptor [filegroup(name = "docs", srcs = ["README.md"])] compiles,
    and parsing it raises [NameError] instead of ignoring the statement. *)
Lemma C2_counterexample :
  parse_file filegroup_descriptor BazelParser_init
  = (Raise (NameError "filegroup"), BazelParser_init).
Proof. vm_compute. reflexivity. Qed.

Lemma exec_stmt_failure (c : call) (self : BazelParser) (e : exn) :
  (exec_stmt exec_globals c self).1 = Raise e →
  (e = NameError (callee c) ∧ exec_globals !! callee c = None)
  ∨ (e = TypeError (callee c) ∧ is_Some (exec_globals !! callee c)
     ∧ args c ≠ []).
Proof.
  unfold exec_stmt. destruct (exec_globals !! callee c) as [f|].
  - destruct f; cbn [call_mock]; unfold record_target;
      try destruct (args c); cbn [fst]; intros [= <-];
      right; repeat split; eauto; discriminate.
  - cbn [fst]. intros [= <-]. by left.
Qed.

Lemma exec_body_failure (body : list call) (self : BazelParser) (e : exn) :
  (exec_body exec_globals body self).1 = Raise e →
  ∃ c, c ∈ body ∧
    ((e = NameError (callee c) ∧ exec_globals !! callee c = None)
     ∨ (e = TypeError (callee c) ∧ is_Some (exec_globals !! callee c)
        ∧ args c ≠ [])).
Proof.
  revert self. induction body as [|c body IH]; intros self; cbn [exec_body].
  - discriminate.
  - pose proof (exec_stmt_failure c self) as Hc.
    destruct (exec_stmt exec_globals c self) as [[[]|e'] self'];
      cbn [fst] in *.
    + intros (c' & Hin & H)%IH. exists c'. split; [by right|exact H].
    + intros [= <-]. exists c. split; [by left|by apply Hc].
Qed.

(** C3, as the code has it.  A text that does not compile makes parsing
    raise [SyntaxError] before any statement runs: nothing is recorded and no
    list is returned; a text the compiler refuses with another exception
    fails with that exception in the same way.  A text that compiles and
    calls no name of Python's builtins never fails with [SyntaxError]: it
    fails only with [NameError], at a statement whose callee is not bound, or
    with [TypeError], at a bound callee given a positional argument.  A text
    that compiles and holds [load] statements only records nothing: the
    parse succeeds and returns the list the parser held, which is empty for
    a fresh parser.  The arguments of these statements are literals; with
    nested calls or names in the arguments, wherever the evaluation of the
    statements has an outcome it is not [SyntaxError] either. *)
Theorem C3_syntax_error (content : source) (self : BazelParser) :
  (content = Malformed → parse_file content self = (Raise SyntaxError, self))
  ∧ (∀ e, content = Refused e → parse_file content self = (Raise e, self))
  ∧ (∀ body, content = Module body →
       Forall calls_no_builtin body →
       (parse_file content self).1 ≠ Raise SyntaxError
       ∧ ∀ e, (parse_file content self).1 = Raise e →
           ∃ c, c ∈ body ∧
             ((e = NameError (callee c) ∧ exec_globals !! callee c = None)
              ∨ (e = TypeError (callee c)
                 ∧ is_Some (exec_globals !! callee c) ∧ args c ≠ [])))
  ∧ (∀ body, content = Module body →
       Forall (λ c, callee c = "load") body →
       parse_file content self = (Ok (targets self), self)
       ∧ parse_file content BazelParser_init = (Ok [], BazelParser_init))
  ∧ (∀ stmts r, run stmts self = Some r → r.1 ≠ Raise SyntaxError).
Proof.
  split; [by intros ->|]. split; [by intros e ->|].
  split; [|split].
  - intros body -> _.
    assert (∀ e, (parse_file (Module body) self).1 = Raise e →
              ∃ c, c ∈ body ∧
                ((e = NameError (callee c) ∧ exec_globals !! callee c = None)
                 ∨ (e = TypeError (callee c)
                    ∧ is_Some (exec_globals !! callee c) ∧ args c ≠ [])))
      as Hfail.
    { intros e. unfold parse_file, exec.
      pose proof (exec_body_failure body self e) as H.
      destruct (exec_body exec_globals body self) as [[[]|e'] self'];
        cbn [fst] in *; [discriminate|].
      intros [= <-]. by apply H. }
    split; [|exact Hfail].
    intros (c & _ & [[H _]|[H _]])%Hfail; discriminate H.
  - intros body -> H.
    assert (Forall recognized body) as Hrec.
    { eapply Forall_impl; [exact H|]. intros c Hc. by left. }
    assert (body ≫= declared = []) as Hnone.
    { clear Hrec. induction H as [|c body Hc _ IH]; [reflexivity|].
      rewrite bind_cons, IH. unfold declared. rewrite Hc. reflexivity. }
    split.
    + unfold parse_file, exec.
      rewrite (exec_body_recognized body self Hrec), Hnone, app_nil_r.
      by destruct self.
    + unfold parse_file, exec.
      rewrite (exec_body_recognized body BazelParser_init Hrec), Hnone.
      reflexivity.
  - intros stmts r Hr He.
    by destruct (run_failure stmts self r _ Hr He)
      as (s & _ & [[? _]|[(f & ? & _)|[? _]]]).
Qed.

Lemma C3_syntax_error_witness :
  parse_file (sample_compile "this is not valid python syntax {")
    BazelParser_init
  = (Raise SyntaxError, BazelParser_init)
  ∧ parse_file
      (Module [Call "load" [Str "@rules_cc//cc:cc_library.bzl";
                            Str "cc_library"] None ∅])
      BazelParser_init
    = (Ok [], BazelParser_init)
  ∧ (parse_file filegroup_descriptor BazelParser_init).1 ≠ Raise SyntaxError
  ∧ (∀ r, run [glob_library] BazelParser_init = Some r →
          r.1 ≠ Raise SyntaxError).
Proof.
  split; [|split; [|split]].
  - destruct (C3_syntax_error
                (sample_compile "this is not valid python syntax {")
                BazelParser_init) as (H & _).
    apply H. reflexivity.
  - destruct (C3_syntax_error
                (Module [Call "load" [Str "@rules_cc//cc:cc_library.bzl";
                                      Str "cc_library"] None ∅])
                BazelParser_init) as (_ & _ & _ & H & _).
    apply (H _ eq_refl).
    apply Forall_cons_2; [reflexivity|apply Forall_nil_2].
  - destruct (C3_syntax_error filegroup_descriptor BazelParser_init)
      as (_ & _ & H & _).
    apply (H _ eq_refl).
    apply Forall_cons_2; [|apply Forall_nil_2].
    unfold calls_no_builtin. cbn [callee].
    apply (bool_decide_unpack _). vm_compute. exact I.
  - destruct (C3_syntax_error Malformed BazelParser_init)
      as (_ & _ & _ & _ & H).
    apply (H [glob_library]).
Defined.

(** The descriptor [filegroup(...)] compiles and declares no recognized rule
    invocation; parsing it with a fresh parser is not a successful parse with
    an empty list, but a [NameError]. *)
Lemma C3_counterexample :
  (∃ body, filegroup_descriptor = Module body ∧ body ≫= declared = [])
  ∧ parse_file filegroup_descriptor BazelParser_init
    ≠ (Ok [], BazelParser_init)
  ∧ (parse_file filegroup_descriptor BazelParser_init).1
    = Raise (NameError "filegroup").
Proof.
  split; [|split].
  - eexists. split; reflexivity.
  - vm_compute. discriminate.
  - vm_compute. reflexivity.
Qed.




(** ** Further properties of the parser *)

Lemma add_attribute_fields (self : BazelTarget) (attr_name : string)
    (values : list string) :
  add_attribute self attr_name values
  = mkBazelTarget (rule_type self) (name self)
      (hdrs self ++ if String.eqb attr_name "hdrs" then values else [])
      (srcs self ++ if String.eqb attr_name "srcs" then values else [])
      (deps self ++ if String.eqb attr_name "deps" then values else [])
      (visibility self
       ++ if String.eqb attr_name "visibility" then values else [])
      (data self ++ if String.eqb attr_name "data" then values else []).
Proof.
  unfold add_attribute.
  destruct (String.eqb attr_name "hdrs") eqn:E1.
  { apply String.eqb_eq in E1. subst. cbn. by rewrite !app_nil_r. }
  destruct (String.eqb attr_name "srcs") eqn:E2.
  { apply String.eqb_eq in E2. subst. cbn. by rewrite !app_nil_r. }
  destruct (String.eqb attr_name "deps") eqn:E3.
  { apply String.eqb_eq in E3. subst. cbn. by rewrite !app_nil_r. }
  destruct (String.eqb attr_name "visibility") eqn:E4.
  { apply String.eqb_eq in E4. subst. cbn. by rewrite !app_nil_r. }
  destruct (String.eqb attr_name "data") eqn:E5.
  { apply String.eqb_eq in E5. subst. cbn. by rewrite !app_nil_r. }
  rewrite !app_nil_r. by destruct self.
Qed.

(** X1. Populating a target appends: each of the five attributes gets the
    values of its keyword behind those the target already has, a single
    string counting as one value; the kind and the name are never touched;
    and every other keyword is ignored, so two keyword dicts that agree on
    the five attributes populate alike. *)
Theorem X1_populate_target_appends (target : BazelTarget)
    (kw kw' : gmap string value) :
  _populate_target target kw
  = mkBazelTarget (rule_type target) (name target)
      (hdrs target ++ listify (kw !! "hdrs"))
      (srcs target ++ listify (kw !! "srcs"))
      (deps target ++ listify (kw !! "deps"))
      (visibility target ++ listify (kw !! "visibility"))
      (data target ++ listify (kw !! "data"))
  ∧ ((∀ k, k ∈ ["hdrs"; "srcs"; "deps"; "visibility"; "data"] →
           kw !! k = kw' !! k) →
     _populate_target target kw = _populate_target target kw').
Proof.
  assert (∀ m : gmap string value,
    _populate_target target m
    = mkBazelTarget (rule_type target) (name target)
        (hdrs target ++ listify (m !! "hdrs"))
        (srcs target ++ listify (m !! "srcs"))
        (deps target ++ listify (m !! "deps"))
        (visibility target ++ listify (m !! "visibility"))
        (data target ++ listify (m !! "data"))) as Hform.
  { intros m. unfold _populate_target. cbn [foldl].
    assert (∀ t attr,
      match m !! attr with
      | Some (Strs values) => add_attribute t attr values
      | Some (Str values) => add_attribute t attr [values]
      | None => t
      end = add_attribute t attr (listify (m !! attr))) as Hstep.
    { intros t attr. destruct (m !! attr) as [[]|]; try reflexivity.
      rewrite add_attribute_fields. cbn [listify].
      repeat match goal with |- context [if ?b then _ else _] =>
        destruct b end;
        rewrite !app_nil_r; by destruct t. }
    rewrite !Hstep, !add_attribute_fields.
    cbn [rule_type name hdrs srcs deps visibility data].
    replace (String.eqb "hdrs" "hdrs") with true by reflexivity.
    replace (String.eqb "srcs" "srcs") with true by reflexivity.
    replace (String.eqb "deps" "deps") with true by reflexivity.
    replace (String.eqb "visibility" "visibility") with true by reflexivity.
    replace (String.eqb "data" "data") with true by reflexivity.
    repeat match goal with |- context [String.eqb ?a ?b] =>
      replace (String.eqb a b) with false by (vm_compute; reflexivity)
    end.
    rewrite !app_nil_r. reflexivity. }
  split; [apply Hform|].
  intros Hagree. rewrite (Hform kw), (Hform kw').
  rewrite !Hagree by (rewrite !elem_of_cons; auto 10). reflexivity.
Qed.

Lemma X1_populate_target_appends_witness :
  _populate_target
    (mkBazelTarget "cc_library" "my_lib" ["a.h"] [] [] [] [])
    {[ "hdrs" := Str "b.h"; "name" := Str "other"; "copts" := Strs ["-O2"] ]}
  = _populate_target
      (mkBazelTarget "cc_library" "my_lib" ["a.h"] [] [] [] [])
      {[ "hdrs" := Str "b.h" ]}.
Proof.
  apply (X1_populate_target_appends
           (mkBazelTarget "cc_library" "my_lib" ["a.h"] [] [] [] [])).
  intros k Hk.
  repeat (apply elem_of_cons in Hk as [->|Hk]; [vm_compute; reflexivity|]).
  by apply elem_of_nil in Hk.
Defined.


(** X3. The recording functions take keyword arguments only: a descriptor in
    which a known rule is called with a positional argument stops there with
    [TypeError]; the statement and everything after it record nothing, and
    the targets of the statements before it stay recorded. *)
Theorem X3_positional_argument (pre post : list call) (c : call)
    (self : BazelParser) :
  Forall recognized pre →
  is_rule (callee c) = true →
  args c ≠ [] →
  parse_file (Module (pre ++ c :: post)) self
  = (Raise (TypeError (callee c)),
     mkBazelParser (targets self ++ (pre ≫= declared))).
Proof.
  intros Hpre Hrule Hargs.
  destruct exec_globals_bound as (_ & Glib & Gtest & Gbin).
  unfold parse_file, exec.
  rewrite exec_body_app, (exec_body_recognized pre self Hpre).
  cbn [exec_body]. unfold exec_stmt.
  destruct c as [id a n kw]. cbn [callee args] in *.
  apply is_rule_cases in Hrule as [->|[->| ->]];
    rewrite ?Glib, ?Gtest, ?Gbin; unfold call_mock, record_target;
    cbn [callee args]; by destruct a.
Qed.

Lemma X3_positional_argument_witness :
  parse_file
    (Module [ Call "cc_library" [] (Some "my_lib") ∅;
              Call "cc_test" [Str "my_lib_test"] None ∅;
              Call "cc_binary" [] (Some "main_app") ∅ ])
    BazelParser_init
  = (Raise (TypeError "cc_test"),
     mkBazelParser [ mkBazelTarget "cc_library" "my_lib" [] [] [] [] [] ]).
Proof.
  etrans.
  - apply (X3_positional_argument
             [Call "cc_library" [] (Some "my_lib") ∅]
             [Call "cc_binary" [] (Some "main_app") ∅]
             (Call "cc_test" [Str "my_lib_test"] None ∅)
             BazelParser_init).
    + apply Forall_cons_2; [right; split; reflexivity|apply Forall_nil_2].
    + reflexivity.
    + discriminate.
  - vm_compute. reflexivity.
Defined.

(** ** Further properties of reference resolution *)

Lemma convert_dep_at_most_one (dep : string) :
  convert_dep [] dep = option_list (resolve_dep dep).
Proof.
  unfold resolve_dep, convert_dep.
  repeat match goal with |- context [if ?b then _ else _] => destruct b end;
    reflexivity.
Qed.

(** X4. Resolution works string by string and keeps the order: every
    dependency string gives at most one identifier, so the resolved list is
    never longer than the dependency list, and every identifier in it is the
    resolution of one of the dependency strings. *)
Theorem X4_resolution_elementwise (bazel_deps : list string) :
  _convert_deps_to_cmake bazel_deps = omap resolve_dep bazel_deps
  ∧ length (_convert_deps_to_cmake bazel_deps) ≤ length bazel_deps
  ∧ (∀ id, id ∈ _convert_deps_to_cmake bazel_deps
           ↔ ∃ dep, dep ∈ bazel_deps ∧ resolve_dep dep = Some id).
Proof.
  assert (_convert_deps_to_cmake bazel_deps = omap resolve_dep bazel_deps)
    as Heq.
  { induction bazel_deps as [|dep l IH]; [reflexivity|].
    rewrite convert_deps_cons, IH, convert_dep_at_most_one. cbn [omap list_omap].
    by destruct (resolve_dep dep). }
  split; [exact Heq|]. rewrite Heq. split.
  - clear Heq. induction bazel_deps as [|dep l IH]; [reflexivity|].
    cbn [omap list_omap]. destruct (resolve_dep dep); cbn [length]; lia.
  - intros id. apply list_elem_of_omap.
Qed.

(** X5. A dependency that makes the generator fetch the testing framework
    is also one the generator links: every string that starts with [@] and
    contains [googletest] or [gtest] resolves to [GTest::gtest_main] or to
    [GTest::gtest], so whenever the fetch block stands in the output, some
    target has one of the two identifiers in its resolved dependencies. *)
Theorem X5_fetched_framework_is_linked (self : CMakeGenerator)
    (targets : list BazelTarget) :
  fetch_block_emitted (generate_cmake_lines self targets) →
  ∃ t, t ∈ targets ∧
       ("GTest::gtest_main" ∈ _convert_deps_to_cmake (deps t)
        ∨ "GTest::gtest" ∈ _convert_deps_to_cmake (deps t)).
Proof.
  intros (before & after & Heq).
  assert (uses_external_gtest targets) as (t & dep & Ht & Hd & Hat & Hsub).
  { apply (fetch_line_needs_external_gtest self). rewrite Heq.
    apply elem_of_app. right. apply elem_of_app. left.
    unfold fetch_googletest. rewrite !elem_of_cons. auto 10. }
  exists t. split; [exact Ht|].
  apply list_elem_of_split in Hd as (l1 & l2 & ->).
  rewrite convert_deps_app, convert_deps_cons.
  assert (convert_dep [] dep = ["GTest::gtest_main"]
          ∨ convert_dep [] dep = ["GTest::gtest"]) as [-> | ->].
  { unfold convert_dep.
    assert (Py.startswith dep ":" = false) as ->.
    { destruct dep as [|c dep]; [discriminate Hat|]. cbn in Hat |- *.
      rewrite andb_true_r in *. apply Ascii.eqb_eq in Hat. by subst c. }
    assert (Py.startswith dep "//" = false) as ->.
    { destruct dep as [|c dep]; [discriminate Hat|]. cbn in Hat |- *.
      rewrite andb_true_r in Hat. apply Ascii.eqb_eq in Hat. by subst c. }
    rewrite Hat.
    assert (Py.contains "googletest" dep || Py.contains "gtest" dep = true)
      as -> by (apply orb_true_iff; exact Hsub).
    repeat match goal with |- context [if ?b then _ else _] => destruct b end;
      auto. }
  - left. rewrite !elem_of_app, elem_of_cons. auto.
  - right. rewrite !elem_of_app, elem_of_cons. auto.
Qed.

Lemma X5_fetched_framework_is_linked_witness :
  ∃ t, t ∈ my_lib_targets ∧
       ("GTest::gtest_main" ∈ _convert_deps_to_cmake (deps t)
        ∨ "GTest::gtest" ∈ _convert_deps_to_cmake (deps t)).
Proof.
  apply (X5_fetched_framework_is_linked (CMakeGenerator_init "test_project")).
  exists (_generate_header (CMakeGenerator_init "test_project")
          ++ [""; "# External dependencies"]).
  eexists. vm_compute. reflexivity.
Defined.

Lemma split_singleton (sep : ascii) (s w : string) :
  Py.split sep s = [w] → s = w.
Proof.
  revert w. induction s as [|c s IH]; intros w; cbn [Py.split].
  - by intros [= <-].
  - destruct (Ascii.eqb c sep).
    + intros [= _ H]. by apply split_nonempty in H.
    + pose proof (split_nonempty sep s) as Hne.
      destruct (Py.split sep s) as [|w' ws]; [done|].
      intros [= <- ->]. by rewrite (IH w').
Qed.

Lemma split_parts_no_sep (sep : ascii) (s x : string) :
  x ∈ Py.split sep s → Py.contains (String sep "") x = false.
Proof.
  revert x. induction s as [|c s IH]; intros x; cbn [Py.split].
  - by intros ->%list_elem_of_singleton.
  - destruct (Ascii.eqb c sep) eqn:E.
    + intros [->|H]%elem_of_cons; [reflexivity|by apply IH].
    + pose proof (split_nonempty sep s) as Hne.
      destruct (Py.split sep s) as [|w ws]; [done|].
      intros [->|H]%elem_of_cons.
      * rewrite contains_sep, E. apply IH. by left.
      * apply IH. by right.
Qed.

Lemma last_split_elem (sep : ascii) (s : string) :
  Py.last (Py.split sep s) ∈ Py.split sep s.
Proof.
  pose proof (split_nonempty sep s) as Hne. unfold Py.last.
  induction (Py.split sep s) as [|x l IH]; [done|].
  destruct l as [|y l]; [by left|]. right. by apply IH.
Qed.

Lemma last_split_suffix (sep : ascii) (s : string) :
  ∃ pre, s = pre +:+ Py.last (Py.split sep s).
Proof.
  induction s as [|c s [pre IH]]; cbn [Py.split].
  - by exists "".
  - pose proof (split_nonempty sep s) as Hne.
    destruct (Ascii.eqb c sep).
    + exists (String c pre). unfold Py.last in *. cbn [String.append].
      destruct (Py.split sep s) as [|w ws]; [done|]. by rewrite IH at 1.
    + destruct (Py.split sep s) as [|w ws] eqn:E; [done|].
      destruct ws as [|x ws].
      * exists "". by rewrite (split_singleton sep s w E).
      * exists (String c pre). unfold Py.last in *. cbn [String.append].
        by rewrite IH at 1.
Qed.

(** X17. A package-path reference (a string starting with [//]) always
    resolves to one identifier, which is an end piece of the reference and
    contains no colon; when the reference has no colon, the identifier
    contains no slash either. *)
Theorem X17_package_path_identifier (dep : string) :
  Py.startswith dep "//" = true →
  ∃ id,
    _convert_deps_to_cmake [dep] = [id]
    ∧ (∃ path, dep = path +:+ id)
    ∧ Py.contains ":" id = false
    ∧ (Py.contains ":" dep = false → Py.contains "/" id = false).
Proof.
  intros Hs.
  assert (Py.startswith dep ":" = false) as Hl.
  { destruct dep as [|c dep]; [discriminate Hs|]. cbn in Hs |- *.
    destruct (Ascii.eqb c "/") eqn:E; [|discriminate Hs].
    apply Ascii.eqb_eq in E. by subst c. }
  rewrite convert_deps_cons. unfold convert_dep. rewrite Hl, Hs.
  destruct (Py.contains ":" dep) eqn:Hc.
  - exists (Py.last (Py.split ":" dep)). split; [reflexivity|].
    split; [apply last_split_suffix|]. split; [|done].
    apply (split_parts_no_sep ":" dep), last_split_elem.
  - exists (Py.last (Py.split "/" dep)). split; [reflexivity|].
    split; [apply last_split_suffix|].
    destruct (last_split_suffix "/" dep) as [pre Hpre]. split.
    + destruct (Py.contains ":" (Py.last (Py.split "/" dep))) eqn:E; [|done].
      rewrite Hpre in Hc at 1. by rewrite (contains_app_r ":" pre _ E) in Hc.
    + intros _. apply (split_parts_no_sep "/" dep), last_split_elem.
Qed.

Lemma X17_package_path_identifier_witness :
  ∃ id,
    _convert_deps_to_cmake ["//third_party/fmt:fmt_headers"] = [id]
    ∧ (∃ path, "//third_party/fmt:fmt_headers" = path +:+ id)
    ∧ Py.contains ":" id = false
    ∧ (Py.contains ":" "//third_party/fmt:fmt_headers" = false →
       Py.contains "/" id = false).
Proof.
  apply (X17_package_path_identifier "//third_party/fmt:fmt_headers").
  reflexivity.
Defined.

(** ** Further properties of the generator *)

Lemma heading_not_comment (s x : string) :
  Py.contains ":" s = false → Py.contains ":" x = true →
  "# " +:+ s = "# " +:+ x → False.
Proof. intros Hs Hx H%append_inv_head. congruence. Qed.

Lemma target_lines_not_heading (t : BazelTarget) (s : string) :
  Py.contains ":" s = false → "# " +:+ s ∉ _generate_target t.
Proof.
  intros Hs H. unfold _generate_target in H.
  destruct (String.eqb (rule_type t) "cc_library").
  { destruct (srcs t) as [|x xs] eqn:Ex; destruct (hdrs t) as [|h hs] eqn:Eh.
    - rewrite library_target_compiled in H by (by right).
      split_in H; try discriminate H;
        (eapply heading_not_comment; [exact Hs| |exact H]; reflexivity).
    - rewrite library_target_header_only in H by congruence.
      split_in H; try discriminate H;
        (eapply heading_not_comment; [exact Hs| |exact H]; reflexivity).
    - rewrite library_target_compiled in H by (left; congruence).
      split_in H; try discriminate H;
        (eapply heading_not_comment; [exact Hs| |exact H]; reflexivity).
    - rewrite library_target_compiled in H by (left; congruence).
      split_in H; try discriminate H;
        (eapply heading_not_comment; [exact Hs| |exact H]; reflexivity). }
  destruct (String.eqb (rule_type t) "cc_test").
  { rewrite test_target_shape in H.
    split_in H; try discriminate H;
        (eapply heading_not_comment; [exact Hs| |exact H]; reflexivity). }
  destruct (String.eqb (rule_type t) "cc_binary").
  { rewrite binary_target_shape in H.
    split_in H; try discriminate H;
        (eapply heading_not_comment; [exact Hs| |exact H]; reflexivity). }
  apply list_elem_of_singleton in H.
  eapply heading_not_comment; [exact Hs| |exact H].
  apply contains_app_r. reflexivity.
Qed.

(** X6. [_find_external_deps] only ever finds [GTest], so the heading of the
    external-dependency section never stands alone: it is in the output
    exactly when the fetch block is.  ([_generate_find_package_section]
    itself, given a set without [GTest], gives the heading only.) *)
Theorem X6_external_section_heading (self : CMakeGenerator)
    (targets : list BazelTarget) :
  (_find_external_deps targets = ∅ ∨ _find_external_deps targets = {["GTest"]})
  ∧ ("# External dependencies" ∈ generate_cmake_lines self targets
     ↔ fetch_block_emitted (generate_cmake_lines self targets))
  ∧ (∀ external_deps : gset string,
       "GTest" ∉ external_deps →
       _generate_find_package_section external_deps
       = ["# External dependencies"]).
Proof.
  split; [|split].
  - rewrite find_external_deps_existsb. destruct (existsb _ targets); auto.
  - split.
    + rewrite generate_cmake_lines_shape at 1. intros H.
      destruct (external_section_cases targets) as [[Hu He]|[Hn He]].
      * rewrite generate_cmake_lines_shape, He.
        exists (_generate_header self ++ [""] ++ ["# External dependencies"]),
          ([""] ++ (targets ≫= λ t, _generate_target t ++ [""])
           ++ install_section targets).
        rewrite <- !app_assoc. reflexivity.
      * exfalso. rewrite He in H. cbn [app] in H.
        apply elem_of_app in H as [H|H].
        { unfold _generate_header in H. split_in H; discriminate H. }
        apply elem_of_cons in H as [H|H]; [discriminate H|].
        apply elem_of_app in H as [H|H].
        { apply list_elem_of_bind in H as (t & H & _).
          apply elem_of_app in H as [H|H];
            [|apply list_elem_of_singleton in H; discriminate H].
          by apply (target_lines_not_heading t "External dependencies") in H. }
        apply install_section_provenance in H as [H|(t & _ & _ & [H|(h & _ & H)])];
          [split_in H; discriminate H|discriminate H|discriminate H].
    + intros (before & after & Heq).
      assert (uses_external_gtest targets) as Hu.
      { apply (fetch_line_needs_external_gtest self). rewrite Heq.
        apply elem_of_app. right. apply elem_of_app. left.
        unfold fetch_googletest. rewrite !elem_of_cons. auto 10. }
      rewrite generate_cmake_lines_shape.
      destruct (external_section_cases targets) as [[_ ->]|[Hn _]]; [|done].
      apply elem_of_app. right. apply elem_of_app. right.
      apply elem_of_app. left. apply elem_of_cons. by left.
  - intros external_deps H. unfold _generate_find_package_section.
    by rewrite bool_decide_eq_false_2.
Qed.

(** X7. A binary target is rendered like a test target without the test
    registration: after the heading comment the two blocks agree up to the
    [add_test] entry that ends the test block, and no line of a binary block
    registers a test. *)
Theorem X7_binary_block (t : BazelTarget) :
  _generate_test_target t
  = ("# Test: " +:+ name t)
    :: tail (_generate_binary_target t)
    ++ [ "add_test(NAME " +:+ name t +:+ " COMMAND " +:+ name t +:+ ")" ]
  ∧ (∀ line, line ∈ _generate_binary_target t →
       Py.startswith line "add_test(" = false)
  ∧ _generate_binary_target t
    = [ "# Binary: " +:+ name t; "add_executable(" +:+ name t ]
      ++ (indent <$> srcs t) ++ [")"]
      ++ link_declaration ("target_link_libraries(" +:+ name t)
           (_convert_deps_to_cmake (deps t)).
Proof.
  rewrite test_target_shape, binary_target_shape. split; [|split].
  - cbn [app tail]. rewrite <- !app_assoc. reflexivity.
  - intros line H. split_in H; subst; reflexivity.
  - reflexivity.
Qed.

(** X8. A target whose rule type is none of the three known ones is rendered
    as its heading comment alone, and it has no part in the install
    section. *)
Theorem X8_unknown_rule_type (t : BazelTarget) (before after : list BazelTarget) :
  rule_type t ≠ "cc_library" → rule_type t ≠ "cc_test" →
  rule_type t ≠ "cc_binary" →
  _generate_target t = [ "# " +:+ rule_type t +:+ ": " +:+ name t ]
  ∧ install_section (before ++ t :: after) = install_section (before ++ after).
Proof.
  intros H1%String.eqb_neq H2%String.eqb_neq H3%String.eqb_neq. split.
  - unfold _generate_target. rewrite H1, H2, H3. reflexivity.
  - unfold install_section, library_targets_of.
    rewrite !filter_app, filter_cons_False by (by rewrite H1). reflexivity.
Qed.

Lemma X8_unknown_rule_type_witness :
  _generate_target (mkBazelTarget "py_library" "tool" [] ["tool.py"] [] [] [])
  = [ "# py_library: tool" ].
Proof.
  apply (X8_unknown_rule_type
           (mkBazelTarget "py_library" "tool" [] ["tool.py"] [] [] []) [] []);
    discriminate.
Defined.

(** X9. A library target with neither sources nor headers is not
    header-only: it is rendered as a compiled unit with an empty file list,
    with PUBLIC include directories and PUBLIC link scope. *)
Theorem X9_library_without_files (t : BazelTarget) :
  srcs t = [] → hdrs t = [] →
  _generate_library_target t
  = [ "# Library: " +:+ name t;
      "add_library(" +:+ name t;
      ")";
      "target_include_directories(" +:+ name t +:+ " PUBLIC";
      "    $<BUILD_INTERFACE:${CMAKE_CURRENT_SOURCE_DIR}>";
      "    $<INSTALL_INTERFACE:include>";
      ")" ]
    ++ link_declaration ("target_link_libraries(" +:+ name t +:+ " PUBLIC")
         (_convert_deps_to_cmake (deps t))
  ∧ (∀ line, line ∈ _generate_library_target t →
       line ≠ "add_library(" +:+ name t +:+ " INTERFACE)").
Proof.
  intros Hs Hh. rewrite (library_target_compiled t (or_intror Hh)), Hs, Hh.
  split; [reflexivity|].
  intros line H ->. split_in H; try discriminate H.
  apply append_inv_head in H. by apply append_not_self in H.
Qed.

Lemma X9_library_without_files_witness :
  _generate_library_target
    (mkBazelTarget "cc_library" "empty" [] [] [":my_lib"] [] [])
  = [ "# Library: empty";
      "add_library(empty";
      ")";
      "target_include_directories(empty PUBLIC";
      "    $<BUILD_INTERFACE:${CMAKE_CURRENT_SOURCE_DIR}>";
      "    $<INSTALL_INTERFACE:include>";
      ")";
      "target_link_libraries(empty PUBLIC";
      "    my_lib";
      ")" ].
Proof.
  apply (X9_library_without_files
           (mkBazelTarget "cc_library" "empty" [] [] [":my_lib"] [] []));
    reflexivity.
Defined.

(** *** Counting declarations *)

Lemma count_prefix_app (p : string) (l1 l2 : list string) :
  count_prefix p (l1 ++ l2) = count_prefix p l1 + count_prefix p l2.
Proof. unfold count_prefix. by rewrite filter_app, length_app. Qed.

Lemma count_prefix_cons (p x : string) (l : list string) :
  count_prefix p (x :: l)
  = (if Py.startswith x p then 1 else 0) + count_prefix p l.
Proof.
  unfold count_prefix. rewrite filter_cons.
  destruct (Py.startswith x p); [by rewrite decide_True|].
  by rewrite decide_False.
Qed.

Lemma count_prefix_none (p : string) (l : list string) :
  (∀ line, line ∈ l → Py.startswith line p = false) → count_prefix p l = 0.
Proof.
  intros H. induction l as [|x l IH]; [reflexivity|].
  rewrite count_prefix_cons, (H x) by (by left).
  apply IH. intros line Hl. apply H. by right.
Qed.

Lemma count_prefix_bind {A} (p : string) (f : A → list string)
    (Q : A → Prop) `{∀ x, Decision (Q x)} (l : list A) :
  (∀ x, count_prefix p (f x) = if decide (Q x) then 1 else 0) →
  count_prefix p (l ≫= f) = length (filter Q l).
Proof.
  intros Hf. induction l as [|x l IH]; [reflexivity|].
  rewrite bind_cons, count_prefix_app, Hf, IH, filter_cons.
  by destruct (decide (Q x)).
Qed.

Ltac count_lines :=
  cbn [app];
  repeat first
    [ rewrite count_prefix_cons
    | rewrite count_prefix_app
    | rewrite (count_prefix_none _ (_ <$> _))
        by (intros ? (? & -> & _)%list_elem_of_fmap; reflexivity)
    | rewrite (count_prefix_none _ (link_declaration _ _))
        by (let H := fresh in intros ? H; split_in H; subst; reflexivity) ];
  change (count_prefix _ []) with 0.

Lemma block_count (t : BazelTarget) :
  count_prefix "add_library(" (_generate_target t ++ [""])
  = (if decide (rule_type t = "cc_library") then 1 else 0)
  ∧ count_prefix "add_executable(" (_generate_target t ++ [""])
    = (if decide (rule_type t = "cc_test" ∨ rule_type t = "cc_binary")
       then 1 else 0)
  ∧ count_prefix "add_test(" (_generate_target t ++ [""])
    = (if decide (rule_type t = "cc_test") then 1 else 0).
Proof.
  unfold _generate_target.
  destruct (String.eqb (rule_type t) "cc_library") eqn:E1.
  { apply String.eqb_eq in E1.
    rewrite decide_True, !decide_False by (rewrite E1; intuition discriminate).
    destruct (srcs t) as [|x xs] eqn:Ex; destruct (hdrs t) as [|h hs] eqn:Eh.
    - rewrite library_target_compiled by (by right).
      repeat split; count_lines; reflexivity.
    - rewrite library_target_header_only by congruence.
      repeat split; count_lines; reflexivity.
    - rewrite library_target_compiled by (left; congruence).
      repeat split; count_lines; reflexivity.
    - rewrite library_target_compiled by (left; congruence).
      repeat split; count_lines; reflexivity. }
  apply String.eqb_neq in E1.
  destruct (String.eqb (rule_type t) "cc_test") eqn:E2.
  { apply String.eqb_eq in E2.
    rewrite decide_False, !decide_True by (rewrite E2; intuition discriminate).
    rewrite test_target_shape. repeat split; count_lines; reflexivity. }
  apply String.eqb_neq in E2.
  destruct (String.eqb (rule_type t) "cc_binary") eqn:E3.
  { apply String.eqb_eq in E3.
    rewrite (decide_False (P := rule_type t = "cc_library")) by done.
    rewrite decide_True by auto.
    rewrite (decide_False (P := rule_type t = "cc_test")) by done.
    rewrite binary_target_shape. repeat split; count_lines; reflexivity. }
  apply String.eqb_neq in E3.
  rewrite !decide_False by tauto.
  repeat split; count_lines; reflexivity.
Qed.

Lemma outside_blocks_count (self : CMakeGenerator) (targets : list BazelTarget)
    (p : string) :
  p = "add_library(" ∨ p = "add_executable(" ∨ p = "add_test(" →
  count_prefix p (_generate_header self ++ [""]) = 0
  ∧ count_prefix p (external_section targets) = 0
  ∧ count_prefix p (install_section targets) = 0.
Proof.
  intros Hp. split; [|split].
  - unfold _generate_header.
    destruct Hp as [->|[->| ->]]; count_lines; reflexivity.
  - destruct (external_section_cases targets) as [[_ ->]|[_ ->]];
      destruct Hp as [->|[->| ->]]; reflexivity.
  - apply count_prefix_none. intros line H.
    apply install_section_provenance in H
      as [H|(t & _ & _ & [->|(h & _ & ->)])];
      destruct Hp as [->|[->| ->]]; try reflexivity;
      split_in H; subst; reflexivity.
Qed.

Lemma output_count (self : CMakeGenerator) (targets : list BazelTarget)
    (p : string) :
  p = "add_library(" ∨ p = "add_executable(" ∨ p = "add_test(" →
  count_prefix p (generate_cmake_lines self targets)
  = count_prefix p (targets ≫= λ t, _generate_target t ++ [""]).
Proof.
  intros Hp.
  destruct (outside_blocks_count self targets p Hp) as (H1 & H2 & H3).
  rewrite generate_cmake_lines_shape, app_assoc.
  rewrite (count_prefix_app p (_generate_header self ++ [""])), H1.
  rewrite (count_prefix_app p (external_section targets)), H2.
  rewrite count_prefix_app, H3. lia.
Qed.

(** X10. Every target gets its declaration once and nothing else declares a
    unit: the output has as many lines starting [add_library(] as there are
    library targets, as many starting [add_executable(] as there are test and
    binary targets, and as many starting [add_test(] as there are test
    targets. *)
Theorem X10_declaration_counts (self : CMakeGenerator)
    (targets : list BazelTarget) :
  count_prefix "add_library(" (generate_cmake_lines self targets)
  = length (filter (λ t, rule_type t = "cc_library") targets)
  ∧ count_prefix "add_executable(" (generate_cmake_lines self targets)
    = length (filter (λ t, rule_type t = "cc_test" ∨ rule_type t = "cc_binary")
                targets)
  ∧ count_prefix "add_test(" (generate_cmake_lines self targets)
    = length (filter (λ t, rule_type t = "cc_test") targets).
Proof.
  rewrite !output_count by auto.
  rewrite (count_prefix_bind _ _ (λ t, rule_type t = "cc_library"))
    by (intros t; apply block_count).
  rewrite (count_prefix_bind _ _
             (λ t, rule_type t = "cc_test" ∨ rule_type t = "cc_binary"))
    by (intros t; apply block_count).
  rewrite (count_prefix_bind _ _ (λ t, rule_type t = "cc_test"))
    by (intros t; apply block_count).
  done.
Qed.

(** X11. Layout of the output: the preamble, an empty line, the external
    section if any, then the block of every target in input order, each
    followed by an empty line, then the install section if any.  The first
    two lines carry the fixed minimum version and the project name.  With no
    target at all the output is the preamble and one empty line. *)
Theorem X11_output_layout (project : string) (targets : list BazelTarget) :
  generate_cmake_lines (CMakeGenerator_init project) targets
  = _generate_header (CMakeGenerator_init project) ++ [""]
    ++ external_section targets
    ++ (targets ≫= λ t, _generate_target t ++ [""])
    ++ install_section targets
  ∧ take 2 (generate_cmake_lines (CMakeGenerator_init project) targets)
    = [ "cmake_minimum_required(VERSION 3.20)";
        "project(" +:+ project +:+ " LANGUAGES CXX)" ]
  ∧ generate_cmake_lines (CMakeGenerator_init project) []
    = _generate_header (CMakeGenerator_init project) ++ [""].
Proof.
  split; [apply generate_cmake_lines_shape|]. split.
  - rewrite generate_cmake_lines_shape. reflexivity.
  - rewrite generate_cmake_lines_shape.
    destruct (external_section_cases []) as [[(t & _ & Ht & _) _]|[_ ->]].
    + by apply elem_of_nil in Ht.
    + reflexivity.
Qed.

Lemma generate_target_ignores_visibility_data (t : BazelTarget)
    (vis dat : list string) :
  _generate_target (with_visibility_data t vis dat) = _generate_target t.
Proof. by destruct t. Qed.

(** X12. The visibility and the data files of a target are never emitted:
    replacing them, in any target, by anything leaves the whole output as it
    was. *)
Theorem X12_visibility_data_not_emitted (self : CMakeGenerator)
    (targets : list BazelTarget) (vis dat : BazelTarget → list string) :
  generate_cmake_lines self
    ((λ t, with_visibility_data t (vis t) (dat t)) <$> targets)
  = generate_cmake_lines self targets.
Proof.
  set (g := λ t, with_visibility_data t (vis t) (dat t)).
  rewrite !generate_cmake_lines_shape. f_equal. f_equal.
  assert (external_section (g <$> targets) = external_section targets) as ->.
  { unfold external_section. rewrite !find_external_deps_existsb.
    assert (existsb (λ t, existsb is_external_gtest (deps t)) (g <$> targets)
            = existsb (λ t, existsb is_external_gtest (deps t)) targets) as ->;
      [|reflexivity].
    induction targets as [|t ts IH]; [reflexivity|].
    rewrite fmap_cons. cbn [existsb]. by rewrite IH. }
  f_equal.
  assert (library_targets_of (g <$> targets) = g <$> library_targets_of targets)
    as Hlib.
  { unfold library_targets_of. induction targets as [|t ts IH]; [reflexivity|].
    rewrite fmap_cons, !filter_cons. cbn [rule_type g with_visibility_data].
    destruct (decide _); [rewrite fmap_cons|]; by rewrite IH. }
  f_equal.
  - clear Hlib. induction targets as [|t ts IH]; [reflexivity|].
    rewrite fmap_cons, !bind_cons, IH.
    unfold g at 1. by rewrite generate_target_ignores_visibility_data.
  - unfold install_section. rewrite Hlib.
    destruct (library_targets_of targets) as [|t l]; [reflexivity|].
    rewrite fmap_cons. cbn [Py.truthy]. rewrite <- fmap_cons.
    rewrite !install_rules_shape. f_equal. f_equal.
    + generalize (t :: l). intros l'. induction l' as [|x l' IH]; [reflexivity|].
      rewrite fmap_cons, !bind_cons, IH. reflexivity.
    + f_equal. rewrite <- list_fmap_compose. reflexivity.
Qed.

(** ** The command line *)



Section MainProperties.

Variable py_compile : string → source.


Lemma main_missing (a : args.t) (w : process) :
  files w !! args.build_file a = None →
  main py_compile a w
  = (Return 1,
     print w ("Error: BUILD file not found: " +:+ args.build_file a)).
Proof. intros H. unfold main. by rewrite H. Qed.

Lemma main_raises (a : args.t) (w : process) (content : string) (e : exn) :
  files w !! args.build_file a = Some content →
  (parse_file (py_compile content) BazelParser_init).1 = Raise e →
  main py_compile a w = (Uncaught e, w).
Proof.
  intros H He. unfold main. rewrite H.
  destruct (parse_file (py_compile content) BazelParser_init) as [[l|e'] p];
    cbn [fst] in He; congruence.
Qed.

Lemma main_no_targets (a : args.t) (w : process) (content : string) :
  files w !! args.build_file a = Some content →
  (parse_file (py_compile content) BazelParser_init).1 = Ok [] →
  main py_compile a w = (Return 1, print w "No targets found in BUILD file").
Proof.
  intros H He. unfold main. rewrite H.
  destruct (parse_file (py_compile content) BazelParser_init) as [[l|e'] p];
    cbn [fst] in He; [|discriminate He].
  injection He as ->. reflexivity.
Qed.




(** X15. The three ways a run fails are told apart: a missing descriptor
    gives return code 1 and the message naming the file, without parsing; a
    descriptor that does not compile lets [SyntaxError] leave [main], with
    nothing printed; a descriptor that compiles and holds [load] statements
    only gives return code 1 and the message that no target was found. *)
Theorem X15_main_failure_modes (a : args.t) (w : process) :
  (files w !! args.build_file a = None →
   main py_compile a w
   = (Return 1,
      print w ("Error: BUILD file not found: " +:+ args.build_file a)))
  ∧ (∀ content,
       files w !! args.build_file a = Some content →
       py_compile content = Malformed →
       main py_compile a w = (Uncaught SyntaxError, w))
  ∧ (∀ content body,
       files w !! args.build_file a = Some content →
       py_compile content = Module body →
       Forall (λ c, callee c = "load") body →
       main py_compile a w
       = (Return 1, print w "No targets found in BUILD file")).
Proof.
  split; [apply main_missing|]. split.
  - intros content H Hc. apply (main_raises a w content); [exact H|].
    by rewrite Hc.
  - intros content body H Hc Hload.
    apply (main_no_targets a w content); [exact H|]. rewrite Hc.
    assert (Forall recognized body) as Hrec.
    { eapply Forall_impl; [exact Hload|]. intros c Hl. by left. }
    assert (body ≫= declared = []) as Hnone.
    { clear -Hload. induction Hload as [|c l Hl _ IH]; [reflexivity|].
      rewrite bind_cons, IH. unfold declared. rewrite Hl. reflexivity. }
    unfold parse_file, exec.
    rewrite (exec_body_recognized body BazelParser_init Hrec), Hnone.
    reflexivity.
Qed.

End MainProperties.



Lemma X15_main_failure_modes_witness :
  main sample_compile
    (args.mk "missing/BUILD.bazel" "CMakeLists.txt" "strong_typedefs")
    (mkProcess sample_files [] sample_os)
  = (Return 1,
     mkProcess sample_files
       ["Error: BUILD file not found: missing/BUILD.bazel"] sample_os)
  ∧ main sample_compile
      (args.mk "bad/BUILD.bazel" "CMakeLists.txt" "strong_typedefs")
      (mkProcess sample_files [] sample_os)
    = (Uncaught SyntaxError, mkProcess sample_files [] sample_os)
  ∧ main sample_compile
      (args.mk "empty/BUILD.bazel" "CMakeLists.txt" "strong_typedefs")
      (mkProcess sample_files [] sample_os)
    = (Return 1,
       mkProcess sample_files ["No targets found in BUILD file"] sample_os).
Proof.
  split; [|split].
  - apply (X15_main_failure_modes sample_compile
             (args.mk "missing/BUILD.bazel" "CMakeLists.txt" "strong_typedefs")
             (mkProcess sample_files [] sample_os)).
    vm_compute. reflexivity.
  - apply (X15_main_failure_modes sample_compile
             (args.mk "bad/BUILD.bazel" "CMakeLists.txt" "strong_typedefs")
             (mkProcess sample_files [] sample_os)
          ) with (content := "this is not valid python syntax {");
      vm_compute; reflexivity.
  - apply (X15_main_failure_modes sample_compile
             (args.mk "empty/BUILD.bazel" "CMakeLists.txt" "strong_typedefs")
             (mkProcess sample_files [] sample_os)
          ) with (content := "") (body := []);
      [vm_compute; reflexivity|vm_compute; reflexivity|apply Forall_nil_2].
Defined.
